(** * Smart checkout service: pricing, validation, order store and handler

    A shallow embedding of [src/pricing.ts], [src/types.ts],
    [src/repository.ts] and [src/checkout.ts].

    - A JavaScript [number] is an IEEE-754 binary64 value.  It is modelled by
      the Standard Library's [spec_float] at precision 53 and exponent bound
      1024, with the library's own [SFmul], [SFadd], [SFdiv] and [SFcompare].
    - The DynamoDB document client, [randomUUID] and the clock are the
      platform: an interface of state-passing operations whose outcomes are
      recorded in a trace of events.
    - [JSON.parse] is a parameter of the handler; its results are values of
      [JSValue].  A checked item is cast to the record [CheckoutItem]:
      properties of an item other than the four declared ones are not
      carried along.
    - Strings are byte strings.  The response body is the value handed to
      [JSON.stringify], not its text.
    - [durationMs] in log entries reads the wall clock and is left out. *)

From Stdlib Require Import ZArith Lia Bool List String Ascii.
From Stdlib Require Import Floats.SpecFloat.
From stdpp Require Import gmap strings.

Local Open Scope string_scope.
Local Open Scope Z_scope.

(** ** JavaScript numbers *)

Module JSNumber.

Definition prec : Z := 53.
Definition emax : Z := 1024.

Definition number : Type := spec_float.

(** Integer literals and integer-valued results: the double nearest to [z]. *)
Definition of_Z (z : Z) : number := binary_normalize prec emax z 0 false.

Definition mul (x y : number) : number := SFmul prec emax x y.
Definition add (x y : number) : number := SFadd prec emax x y.
Definition div (x y : number) : number := SFdiv prec emax x y.

(** [x <= y], [x < y]: false as soon as an operand is NaN. *)
Definition leb (x y : number) : bool := SFleb x y.
Definition ltb (x y : number) : bool := SFltb x y.

(** Representation invariant of a binary64 value. *)
Definition wf (x : number) : bool := valid_binary prec emax x.

(** The integer part, rounded towards minus infinity, of [(-1)^s * m * 2^e]. *)
Definition floorZ (s : bool) (m : positive) (e : Z) : Z :=
  if 0 <=? e then cond_Zopp s (Zpos m * 2 ^ e)
  else cond_Zopp s (Zpos m) / 2 ^ (- e).

(** [Math.floor]: zeros, infinities and NaN are returned unchanged. *)
Definition Math_floor (x : number) : number :=
  match x with
  | S754_finite s m e => binary_normalize prec emax (floorZ s m e) 0 s
  | _ => x
  end.

(** [Number.isInteger] on a number: finite and without fractional part. *)
Definition isInteger (x : number) : bool :=
  match x with
  | S754_zero _ => true
  | S754_finite _ m e => (0 <=? e) || (Zpos m mod 2 ^ (- e) =? 0)
  | _ => false
  end.

(** The mathematical value of an integer-valued number. *)
Definition to_Z (x : number) : Z :=
  match x with
  | S754_finite s m e => floorZ s m e
  | _ => 0
  end.

(** The canonical binary64 representation of an integer [0 < z < 2^53]:
    53 significant bits, the exponent chosen accordingly. *)
Definition canon (s : bool) (z : Z) : number :=
  S754_finite s (Z.to_pos (z * 2 ^ (53 - (Z.log2 z + 1)))) (Z.log2 z + 1 - 53).

(** The literal [0.08]: the double nearest to 8/100. *)
Definition lit_0_08 : number := div (of_Z 8) (of_Z 100).

End JSNumber.

Import JSNumber.

(** ** [src/types.ts] *)

Record CheckoutItem := {
  ci_productId : string;
  ci_name : string;
  ci_unitPrice : number;
  ci_quantity : number
}.

Record OrderItem := {
  productId : string;
  name : string;
  unitPrice : number;
  quantity : number;
  lineTotal : number
}.

Record CheckoutRequest := {
  req_cartId : string;
  req_customerId : string;
  req_items : list CheckoutItem
}.

Variant OrderStatus := CONFIRMED.

Record Order := {
  orderId : string;
  cartId : string;
  customerId : string;
  items : list OrderItem;
  subtotal : number;
  tax : number;
  total : number;
  status : OrderStatus;
  createdAt : string
}.

(** ** [src/pricing.ts] *)

Record PricingResult := {
  pr_items : list OrderItem;
  pr_subtotal : number;
  pr_tax : number;
  pr_total : number
}.

(** [{ ...item, lineTotal: item.unitPrice * item.quantity }] *)
Definition priceItem (item : CheckoutItem) : OrderItem :=
  {| productId := ci_productId item;
     name := ci_name item;
     unitPrice := ci_unitPrice item;
     quantity := ci_quantity item;
     lineTotal := mul (ci_unitPrice item) (ci_quantity item) |}.

Definition calculatePricing (items : list CheckoutItem) : PricingResult :=
  let orderItems := List.map priceItem items in
  let subtotal :=
    fold_left (fun sum item => add sum (lineTotal item)) orderItems (of_Z 0) in
  let tax := Math_floor (mul subtotal lit_0_08) in
  let total := add subtotal tax in
  {| pr_items := orderItems; pr_subtotal := subtotal;
     pr_tax := tax; pr_total := total |}.

(** ** Values produced by [JSON.parse]

    An object is the list of its own properties, whose keys are distinct;
    [obj[key]] looks the key up, and [None] stands for [undefined]. *)

#[warnings="-register-all"]
Inductive JSValue :=
| JNull
| JBool (b : bool)
| JNumber (n : number)
| JString (s : string)
| JArray (elems : list JSValue)
| JObject (props : list (string * JSValue)).

Fixpoint get_prop (key : string) (props : list (string * JSValue)) : option JSValue :=
  match props with
  | [] => None
  | (k, v) :: rest => if String.eqb k key then Some v else get_prop key rest
  end.

(** ** Regular expressions of the shape [^ c1{n1} c2{n2} ... $]

    A class is a list of inclusive character ranges; with the [i] flag a
    character matches when it or its other-case form lies in the class. *)

Module Regex.

Definition class : Type := list (ascii * ascii).

Record regex := {
  atoms : list (class * nat);
  ignoreCase : bool
}.

Definition code (c : ascii) : N := N_of_ascii c.

Definition in_range (c : ascii) (r : ascii * ascii) : bool :=
  ((code (fst r) <=? code c) && (code c <=? code (snd r)))%N.

Definition in_class (cl : class) (c : ascii) : bool :=
  existsb (in_range c) cl.

Definition toUpper (c : ascii) : ascii :=
  if ((97 <=? code c) && (code c <=? 122))%N
  then ascii_of_N (code c - 32) else c.

Definition toLower (c : ascii) : ascii :=
  if ((65 <=? code c) && (code c <=? 90))%N
  then ascii_of_N (code c + 32) else c.

Definition class_test (i : bool) (cl : class) (c : ascii) : bool :=
  if i then in_class cl c || in_class cl (toLower c) || in_class cl (toUpper c)
  else in_class cl c.

(** [cl{n}] at the head of [s]: the rest of the input, if it matches. *)
Fixpoint match_rep (i : bool) (cl : class) (n : nat) (s : string) : option string :=
  match n with
  | O => Some s
  | S n' =>
      match s with
      | String c rest => if class_test i cl c then match_rep i cl n' rest else None
      | EmptyString => None
      end
  end.

Fixpoint match_atoms (i : bool) (ats : list (class * nat)) (s : string) : option string :=
  match ats with
  | [] => Some s
  | (cl, n) :: more =>
      match match_rep i cl n s with
      | Some rest => match_atoms i more rest
      | None => None
      end
  end.

(** [re.test(s)] for an anchored expression. *)
Definition test (re : regex) (s : string) : bool :=
  match match_atoms (ignoreCase re) (atoms re) s with
  | Some EmptyString => true
  | _ => false
  end.

End Regex.

(** ** [src/checkout.ts]: responses *)

Variant ResponseBody :=
| BodyOrder (o : Order)
| BodyError (error message : string).

Record APIGatewayProxyResult := {
  statusCode : Z;
  headers : list (string * string);
  body : ResponseBody    (* the value handed to [JSON.stringify] *)
}.

Record APIGatewayProxyEvent := {
  ev_body : option string
}.

(** [event.body ?? ''] *)
Definition body_text (event : APIGatewayProxyEvent) : string :=
  match ev_body event with Some b => b | None => "" end.

Definition ok (o : Order) : APIGatewayProxyResult :=
  {| statusCode := 200;
     headers := [("Content-Type", "application/json")];
     body := BodyOrder o |}.

Definition validationError (message : string) : APIGatewayProxyResult :=
  {| statusCode := 400;
     headers := [("Content-Type", "application/json")];
     body := BodyError "VALIDATION_ERROR" message |}.

Definition internalError : APIGatewayProxyResult :=
  {| statusCode := 500;
     headers := [("Content-Type", "application/json")];
     body := BodyError "INTERNAL_ERROR" "An unexpected error occurred" |}.

(** ** [src/checkout.ts]: validation *)

Definition hex_class : Regex.class := [("0", "9"); ("a", "f")]%char.
Definition dash_class : Regex.class := [("-", "-")]%char.

(** [/^[0-9a-f]{8}-[0-9a-f]{4}-[0-9a-f]{4}-[0-9a-f]{4}-[0-9a-f]{12}$/i] *)
Definition UUID_RE : Regex.regex :=
  {| Regex.atoms :=
       [(hex_class, 8%nat); (dash_class, 1%nat);
        (hex_class, 4%nat); (dash_class, 1%nat);
        (hex_class, 4%nat); (dash_class, 1%nat);
        (hex_class, 4%nat); (dash_class, 1%nat);
        (hex_class, 12%nat)];
     Regex.ignoreCase := true |}.

Variant Validation :=
| Valid (value : CheckoutRequest)
| Invalid (message : string).

(** [typeof v !== 'string' || v === ''] fails: [None]. *)
Definition nonEmptyString (v : option JSValue) : option string :=
  match v with
  | Some (JString EmptyString) => None
  | Some (JString s) => Some s
  | _ => None
  end.

(** [!Number.isInteger(v)] fails: [None]. *)
Definition integerNumber (v : option JSValue) : option number :=
  match v with
  | Some (JNumber n) => if isInteger n then Some n else None
  | _ => None
  end.

(** The body of the [for] loop, and the cast of a checked item. *)
Definition validateItem (item : JSValue) : string + CheckoutItem :=
  match item with
  | JObject i =>
      match nonEmptyString (get_prop "productId" i) with
      | None => inl "Each item must have a productId"
      | Some pid =>
      match nonEmptyString (get_prop "name" i) with
      | None => inl "Each item must have a name"
      | Some nm =>
      match integerNumber (get_prop "unitPrice" i) with
      | None => inl "unitPrice must be a positive integer (cents)"
      | Some u =>
      if leb u (of_Z 0) then inl "unitPrice must be a positive integer (cents)" else
      match integerNumber (get_prop "quantity" i) with
      | None => inl "quantity must be an integer >= 1"
      | Some q =>
      if ltb q (of_Z 1) then inl "quantity must be an integer >= 1" else
      inr {| ci_productId := pid; ci_name := nm;
             ci_unitPrice := u; ci_quantity := q |}
      end end end end
  | _ => inl "Each item must be an object"
  end.

Fixpoint validateItems (items : list JSValue) : string + list CheckoutItem :=
  match items with
  | [] => inr []
  | item :: rest =>
      match validateItem item with
      | inl message => inl message
      | inr ci =>
          match validateItems rest with
          | inl message => inl message
          | inr cis => inr (ci :: cis)
          end
      end
  end.

Definition validateRequest (body : JSValue) : Validation :=
  match body with
  | JObject raw =>
      match nonEmptyString (get_prop "cartId" raw) with
      | None => Invalid "Missing or invalid cartId"
      | Some cart =>
      if negb (Regex.test UUID_RE cart) then Invalid "cartId must be a valid UUID" else
      match nonEmptyString (get_prop "customerId" raw) with
      | None => Invalid "Missing or invalid customerId"
      | Some customer =>
      match get_prop "items" raw with
      | Some (JArray (first :: more)) =>
          match validateItems (first :: more) with
          | inl message => Invalid message
          | inr its =>
              Valid {| req_cartId := cart; req_customerId := customer;
                       req_items := its |}
          end
      | _ => Invalid "Cart is empty"
      end end end
  | _ => Invalid "Request body must be a JSON object"
  end.

(** ** The platform: DynamoDB client, identifiers, clock, console

    What the program throws and catches, what it logs, and the calls it makes
    on the outside world.  What is thrown is an [Error] object with a name
    and a message, an instance of [ConditionalCheckFailedException] or not;
    [String(err)] is [Error.prototype.toString].  [durationMs] of a log entry
    depends on the wall clock only and is left out of [LogEntry]. *)

Variant Exn :=
| ConditionalCheckFailedException (message : string)
| OtherError (name message : string).

(** [new Error(message)] *)
Definition Error (message : string) : Exn := OtherError "Error" message.

(** [Error.prototype.toString]: the name alone when the message is empty,
    the message alone when the name is empty, otherwise both, separated by a
    colon and a space. *)
Definition Error_toString (nm msg : string) : string :=
  if String.eqb nm "" then msg
  else if String.eqb msg "" then nm
  else nm ++ ": " ++ msg.

(** [String(err)] *)
Definition String_of_Exn (err : Exn) : string :=
  match err with
  | ConditionalCheckFailedException m =>
      Error_toString "ConditionalCheckFailedException" m
  | OtherError n m => Error_toString n m
  end.

Variant Level := info | warn | error.

Record LogEntry := {
  level : Level;
  action : string;
  log_cartId : option string;
  log_orderId : option string;
  log_total : option number;
  log_error : option string
}.

Variant Event :=
| EvGet (key : string) (result : Exn + option Order)
| EvPut (item : Order) (result : Exn + unit)
| EvLog (entry : LogEntry).

(** [send_GetCommand k] is [client.send(new GetCommand({Key: {cartId: k}}))],
    returning [result.Item]; [send_PutCommand o] is the put of [o] under
    [ConditionExpression: 'attribute_not_exists(cartId)']. *)
Class Platform (W : Type) := {
  send_GetCommand : string -> W -> (Exn + option Order) * W;
  send_PutCommand : Order -> W -> (Exn + unit) * W;
  randomUUID : W -> string * W;
  Date_toISOString : W -> string * W
}.

(** *** Computations: world passing, a trace of events, exceptions *)

Variant Result (A : Type) :=
| Ok (a : A)
| Throw (err : Exn).
Arguments Ok {A} a.
Arguments Throw {A} err.

Definition M (W A : Type) : Type := W -> Result A * W * list Event.

Definition ret {W A} (a : A) : M W A := fun w => (Ok a, w, []).

Definition throw {W A} (err : Exn) : M W A := fun w => (Throw err, w, []).

Definition bind {W A B} (m : M W A) (f : A -> M W B) : M W B :=
  fun w =>
    let '(r, w1, t1) := m w in
    match r with
    | Ok a => let '(r2, w2, t2) := f a w1 in (r2, w2, (t1 ++ t2)%list)
    | Throw err => (Throw err, w1, t1)
    end.

(** [try { m } catch (err) { h err }] *)
Definition try_catch {W A} (m : M W A) (h : Exn -> M W A) : M W A :=
  fun w =>
    let '(r, w1, t1) := m w in
    match r with
    | Ok a => (Ok a, w1, t1)
    | Throw err => let '(r2, w2, t2) := h err w1 in (r2, w2, (t1 ++ t2)%list)
    end.

Notation "'let*' x := m 'in' k" := (bind m (fun x => k))
  (at level 10, x name, m at level 100, k at level 200).
Notation "m ;;; k" := (bind m (fun _ => k))
  (at level 100, k at level 200, right associativity).

(** [console.log(JSON.stringify(entry))] *)
Definition log {W} (entry : LogEntry) : M W unit :=
  fun w => (Ok tt, w, [EvLog entry]).

Section Service.

Context {W : Type} {P : Platform W}.

(** [JSON.parse]: [None] when it throws a [SyntaxError]. *)
Variable JSON_parse : string -> option JSValue.

Definition await_get (key : string) : M W (option Order) :=
  fun w =>
    let '(r, w') := send_GetCommand key w in
    (match r with inl err => Throw err | inr it => Ok it end, w', [EvGet key r]).

Definition await_put (o : Order) : M W unit :=
  fun w =>
    let '(r, w') := send_PutCommand o w in
    (match r with inl err => Throw err | inr u => Ok u end, w', [EvPut o r]).

Definition fresh_uuid : M W string :=
  fun w => let '(u, w') := randomUUID w in (Ok u, w', []).

Definition now_iso : M W string :=
  fun w => let '(t, w') := Date_toISOString w in (Ok t, w', []).

(** *** [src/repository.ts] *)

Definition getOrderByCartId (cart : string) : M W (option Order) :=
  await_get cart.

Record CreateOrderResult := {
  created : bool;
  order : Order
}.

Definition createOrder (o : Order) : M W CreateOrderResult :=
  try_catch
    (await_put o ;;;
     ret {| created := true; order := o |})
    (fun err =>
       match err with
       | ConditionalCheckFailedException _ =>
           let* existing := getOrderByCartId (cartId o) in
           match existing with
           | None =>
               throw (Error ("Idempotency check failed: order for cartId "
                             ++ cartId o ++ " not found after conflict"))
           | Some e => ret {| created := false; order := e |}
           end
       | _ => throw err
       end).

(** *** [src/checkout.ts]: payment capture (mock) and the handler *)

Definition capturePayment (oid : string) (amount : number) : M W unit :=
  log {| level := info; action := "payment.capture"; log_cartId := None;
         log_orderId := Some oid; log_total := Some amount; log_error := None |}.

Definition handler (event : APIGatewayProxyEvent) : M W APIGatewayProxyResult :=
  match JSON_parse (body_text event) with
  | None => ret (validationError "Invalid JSON body")
  | Some parsed =>
  match validateRequest parsed with
  | Invalid message => ret (validationError message)
  | Valid req =>
      let cart := req_cartId req in
      try_catch
        (log {| level := info; action := "checkout.start"; log_cartId := Some cart;
                log_orderId := None; log_total := None; log_error := None |} ;;;
         let* existing := getOrderByCartId cart in
         match existing with
         | Some found =>
             log {| level := info; action := "checkout.duplicate";
                    log_cartId := Some cart; log_orderId := Some (orderId found);
                    log_total := None; log_error := None |} ;;;
             ret (ok found)
         | None =>
             let pricing := calculatePricing (req_items req) in
             let* oid := fresh_uuid in
             let* stamp := now_iso in
             let o := {| orderId := oid; cartId := cart;
                         customerId := req_customerId req;
                         items := pr_items pricing;
                         subtotal := pr_subtotal pricing;
                         tax := pr_tax pricing;
                         total := pr_total pricing;
                         status := CONFIRMED;
                         createdAt := stamp |} in
             let* result := createOrder o in
             if negb (created result) then
               log {| level := info; action := "checkout.duplicate";
                      log_cartId := Some cart;
                      log_orderId := Some (orderId (order result));
                      log_total := None; log_error := None |} ;;;
               ret (ok (order result))
             else
               capturePayment (orderId o) (total o) ;;;
               log {| level := info; action := "checkout.complete";
                      log_cartId := Some cart; log_orderId := Some (orderId o);
                      log_total := None; log_error := None |} ;;;
               ret (ok o)
         end)
        (fun err =>
           log {| level := error; action := "checkout.error";
                  log_cartId := Some cart; log_orderId := None;
                  log_total := None; log_error := Some (String_of_Exn err) |} ;;;
           ret internalError)
  end end.

End Service.

(** ** Two platforms

    An in-memory table with a conditional put, and a scripted client whose
    successive answers are given in advance (as the mocks of
    [tests/checkout.test.ts] do). *)

Record MemWorld := {
  table : gmap string Order;
  uuid_at : nat -> string;
  time_at : nat -> string;
  tick : nat
}.

Definition mem_put (o : Order) (w : MemWorld) : (Exn + unit) * MemWorld :=
  match table w !! cartId o with
  | Some _ => (inl (ConditionalCheckFailedException "The conditional request failed"), w)
  | None =>
      (inr tt, {| table := <[cartId o := o]> (table w); uuid_at := uuid_at w;
                  time_at := time_at w; tick := tick w |})
  end.

Definition mem_next (w : MemWorld) : MemWorld :=
  {| table := table w; uuid_at := uuid_at w; time_at := time_at w;
     tick := S (tick w) |}.

#[global] Instance mem_platform : Platform MemWorld := {
  send_GetCommand k w := (inr (table w !! k), w);
  send_PutCommand := mem_put;
  randomUUID w := (uuid_at w (tick w), mem_next w);
  Date_toISOString w := (time_at w (tick w), mem_next w)
}.

Record Script := {
  get_results : list (Exn + option Order);
  put_results : list (Exn + unit)
}.

#[global] Instance scripted_platform : Platform Script := {
  send_GetCommand _ w :=
    match get_results w with
    | [] => (inr None, w)
    | r :: rest => (r, {| get_results := rest; put_results := put_results w |})
    end;
  send_PutCommand _ w :=
    match put_results w with
    | [] => (inr tt, w)
    | r :: rest => (r, {| get_results := get_results w; put_results := rest |})
    end;
  randomUUID w := ("7d3f8a52-1c9e-4b60-a1d4-5e2f90c3b781", w);
  Date_toISOString w := ("2024-01-15T10:30:00.000Z", w)
}.

(** ** Fixtures

    The cart and the identifier of [tests/checkout.test.ts], request bodies,
    a parser table standing in for [JSON.parse] where a concrete parser is
    needed (every other input is a syntax error), worlds and events. *)

Definition CART_ID : string := "123e4567-e89b-12d3-a456-426614174000".

Definition js_item (pid nm : string) (u q : Z) : JSValue :=
  JObject [("productId", JString pid); ("name", JString nm);
           ("unitPrice", JNumber (of_Z u)); ("quantity", JNumber (of_Z q))].

Definition js_request (its : list JSValue) : JSValue :=
  JObject [("cartId", JString CART_ID); ("customerId", JString "customer-1");
           ("items", JArray its)].

Definition parse_fixture (s : string) : option JSValue :=
  if String.eqb s "valid" then
    Some (js_request [js_item "prod-1" "T-Shirt" 2000 2; js_item "prod-2" "Mug" 1500 1])
  else if String.eqb s "other-items" then
    Some (js_request [js_item "prod-9" "Poster" 700 3])
  else if String.eqb s "empty-cart" then Some (js_request [])
  else if String.eqb s "null" then Some JNull
  else None.

Definition cart_item (pid nm : string) (u q : Z) : CheckoutItem :=
  {| ci_productId := pid; ci_name := nm;
     ci_unitPrice := of_Z u; ci_quantity := of_Z q |}.

(** The cart of the acceptance tests: 2000 x 2 and 1500 x 1. *)
Definition test_cart : list CheckoutItem :=
  [cart_item "prod-1" "T-Shirt" 2000 2; cart_item "prod-2" "Mug" 1500 1].

(** One line of 5254199565265587 cents. *)
Definition cart_5254199565265587 : list CheckoutItem :=
  [cart_item "prod-1" "Bond" 5254199565265587 1].

(** Three units at [Number.MAX_SAFE_INTEGER] cents. *)
Definition cart_max_safe : list CheckoutItem :=
  [cart_item "prod-1" "Bond" 9007199254740991 3].

(** One line of 9007199254740990 cents: the subtotal is a safe integer, the
    sum of subtotal and tax is not. *)
Definition cart_9007199254740990 : list CheckoutItem :=
  [cart_item "prod-1" "Bond" 9007199254740990 1].

(** The order the handler creates for [test_cart] in [mem_empty]. *)
Definition stored_order : Order :=
  {| orderId := "7d3f8a52-1c9e-4b60-a1d4-5e2f90c3b781";
     cartId := CART_ID;
     customerId := "customer-1";
     items := pr_items (calculatePricing test_cart);
     subtotal := of_Z 5500;
     tax := of_Z 440;
     total := of_Z 5940;
     status := CONFIRMED;
     createdAt := "2024-01-15T10:30:00.000Z" |}.

Definition mem_empty : MemWorld :=
  {| table := ∅;
     uuid_at := fun _ => "7d3f8a52-1c9e-4b60-a1d4-5e2f90c3b781";
     time_at := fun _ => "2024-01-15T10:30:00.000Z";
     tick := 0 |}.

Definition mem_with_order : MemWorld :=
  {| table := {[ CART_ID := stored_order ]};
     uuid_at := uuid_at mem_empty; time_at := time_at mem_empty; tick := 0 |}.

Definition request_of (its : list CheckoutItem) : CheckoutRequest :=
  {| req_cartId := CART_ID; req_customerId := "customer-1"; req_items := its |}.

Definition event_of (text : string) : APIGatewayProxyEvent :=
  {| ev_body := Some text |}.

Definition event_without_body : APIGatewayProxyEvent := {| ev_body := None |}.

(** The store refuses the put, then finds nothing. *)
Definition vanishing_store : Script :=
  {| get_results := [inr None; inr None];
     put_results := [inl (ConditionalCheckFailedException "The conditional request failed")] |}.

(** ** Vocabulary of the properties *)

(** A priced cart as the pricing engine expects it: every price and quantity
    is a well-formed number, integral, with price > 0 and quantity >= 1. *)
Definition valid_item (it : CheckoutItem) : bool :=
  wf (ci_unitPrice it) && isInteger (ci_unitPrice it) && ltb (of_Z 0) (ci_unitPrice it)
  && wf (ci_quantity it) && isInteger (ci_quantity it) && leb (of_Z 1) (ci_quantity it).

Definition valid_items (its : list CheckoutItem) : Prop :=
  its <> [] /\ forallb valid_item its = true.

(** The subtotal over the integers. *)
Fixpoint exact_subtotal (its : list CheckoutItem) : Z :=
  match its with
  | [] => 0
  | it :: rest => to_Z (ci_unitPrice it) * to_Z (ci_quantity it) + exact_subtotal rest
  end.

(** The line item with its total computed over the integers. *)
Definition exact_priceItem (it : CheckoutItem) : OrderItem :=
  {| productId := ci_productId it;
     name := ci_name it;
     unitPrice := ci_unitPrice it;
     quantity := ci_quantity it;
     lineTotal := of_Z (to_Z (ci_unitPrice it) * to_Z (ci_quantity it)) |}.

(** Floor of 8 percent, over the integers. *)
Definition exact_tax (subtotal : Z) : Z := subtotal * 8 / 100.

(** A non-negative integer, as a number. *)
Definition nonneg_integer (x : number) : bool := isInteger x && leb (of_Z 0) x.

(** A hexadecimal digit in either case, and the 8-4-4-4-12 hyphenated shape. *)
Definition hex_digit (c : ascii) : Prop :=
  In c (list_ascii_of_string "0123456789abcdefABCDEF").

Definition hex_group (n : nat) (g : string) : Prop :=
  String.length g = n /\ Forall hex_digit (list_ascii_of_string g).

Definition uuid_shape (s : string) : Prop :=
  exists g1 g2 g3 g4 g5,
    s = (g1 ++ "-" ++ g2 ++ "-" ++ g3 ++ "-" ++ g4 ++ "-" ++ g5)%string /\
    hex_group 8 g1 /\ hex_group 4 g2 /\ hex_group 4 g3 /\
    hex_group 4 g4 /\ hex_group 12 g5.

(** [hex_digit], decided. *)
Definition hex_digitb (c : ascii) : bool :=
  existsb (Ascii.eqb c) (list_ascii_of_string "0123456789abcdefABCDEF").

(** The messages of [validateRequest]. *)
Definition item_messages : list string :=
  ["Each item must be an object"; "Each item must have a productId";
   "Each item must have a name";
   "unitPrice must be a positive integer (cents)";
   "quantity must be an integer >= 1"].

Definition validation_messages : list string :=
  ["Request body must be a JSON object"; "Missing or invalid cartId";
   "cartId must be a valid UUID"; "Missing or invalid customerId";
   "Cart is empty"] ++ item_messages.

(** Events of a trace. *)
Definition is_put (ev : Event) : bool :=
  match ev with EvPut _ _ => true | _ => false end.

Definition is_capture (ev : Event) : bool :=
  match ev with
  | EvLog e => String.eqb (action e) "payment.capture"
  | _ => false
  end.

(** The defects of a request body named by the validation rules. *)
Definition array_items (body : JSValue) : list JSValue :=
  match body with
  | JObject raw => match get_prop "items" raw with Some (JArray l) => l | _ => [] end
  | _ => []
  end.

Definition prop_of (v : JSValue) (key : string) : option JSValue :=
  match v with JObject ps => get_prop key ps | _ => None end.

Inductive defect (body : JSValue) : Prop :=
| empty_items : prop_of body "items" = Some (JArray []) -> defect body
| missing_cartId : prop_of body "cartId" = None -> defect body
| missing_customerId : prop_of body "customerId" = None -> defect body
| bad_unitPrice it n :
    In it (array_items body) -> prop_of it "unitPrice" = Some (JNumber n) ->
    leb n (of_Z 0) = true -> defect body
| bad_quantity it n :
    In it (array_items body) -> prop_of it "quantity" = Some (JNumber n) ->
    ltb n (of_Z 1) = true -> defect body.

(** The event left by [capturePayment oid amount]. *)
Definition captures (oid : string) (amount : number) (ev : Event) : Prop :=
  ev = EvLog {| level := info; action := "payment.capture"; log_cartId := None;
                log_orderId := Some oid; log_total := Some amount;
                log_error := None |}.

(** Capture only after the store reported the creation of that order, at most
    once, and never when a read found an order or a put was refused. *)
Definition capture_discipline (t : list Event) : Prop :=
  (forall pre ev post,
      t = (pre ++ ev :: post)%list -> is_capture ev = true ->
      exists o, In (EvPut o (inr tt)) pre /\ captures (orderId o) (total o) ev)
  /\ (List.length (List.filter is_capture t) <= 1)%nat
  /\ ((exists k o, In (EvGet k (inr (Some o))) t) -> List.filter is_capture t = [])
  /\ ((exists o err, In (EvPut o (inl err)) t) -> List.filter is_capture t = []).

(** The same ordering, checked along the trace with the orders created so far. *)
Fixpoint ordered_from (committed : list Order) (t : list Event) : Prop :=
  match t with
  | [] => True
  | ev :: rest =>
      (is_capture ev = true ->
       exists o, In o committed /\ captures (orderId o) (total o) ev)
      /\ ordered_from
           (match ev with EvPut o (inr _) => o :: committed | _ => committed end)
           rest
  end.

(** ** Further vocabulary *)

(** The field rules of the request table, on a checked item. *)
Definition item_rules (ci : CheckoutItem) : Prop :=
  ci_productId ci <> "" /\ ci_name ci <> ""
  /\ isInteger (ci_unitPrice ci) = true /\ ltb (of_Z 0) (ci_unitPrice ci) = true
  /\ isInteger (ci_quantity ci) = true /\ leb (of_Z 1) (ci_quantity ci) = true.

(** The checked item carries the four properties of the JSON item as they are. *)
Definition item_of_json (it : JSValue) (ci : CheckoutItem) : Prop :=
  prop_of it "productId" = Some (JString (ci_productId ci))
  /\ prop_of it "name" = Some (JString (ci_name ci))
  /\ prop_of it "unitPrice" = Some (JNumber (ci_unitPrice ci))
  /\ prop_of it "quantity" = Some (JNumber (ci_quantity ci)).

(** The order the handler submits for a validated request, once the
    identifier and the time stamp are drawn. *)
Definition candidate (req : CheckoutRequest) (oid stamp : string) : Order :=
  let pricing := calculatePricing (req_items req) in
  {| orderId := oid; cartId := req_cartId req;
     customerId := req_customerId req;
     items := pr_items pricing;
     subtotal := pr_subtotal pricing;
     tax := pr_tax pricing;
     total := pr_total pricing;
     status := CONFIRMED;
     createdAt := stamp |}.

Definition is_get (ev : Event) : bool :=
  match ev with EvGet _ _ => true | _ => false end.

Definition log_of (lv : Level) (act : string) (cart : string)
           (oid : option string) (err : option string) : Event :=
  EvLog {| level := lv; action := act; log_cartId := Some cart;
           log_orderId := oid; log_total := None; log_error := err |}.

(** What a request may do to the store: reads of its own key, and puts of a
    candidate built from the request under that same key. *)
Definition store_call_of (req : CheckoutRequest) (ev : Event) : Prop :=
  match ev with
  | EvGet k _ => k = req_cartId req
  | EvPut o _ => exists oid stamp, o = candidate req oid stamp
  | EvLog _ => True
  end.

Definition is_store_call (ev : Event) : bool := is_get ev || is_put ev.

(** The three ways a validated request talks to the store: a probe that
    answers or fails; a probe that finds nothing and one put that is not a
    conflict; or probe, conflicting put and one re-read. *)
Definition store_pattern (req : CheckoutRequest) (calls : list Event) : Prop :=
  let cart := req_cartId req in
  (exists gr, gr <> inr None /\ calls = [EvGet cart gr])
  \/ (exists oid stamp pr,
        (forall m, pr <> inl (ConditionalCheckFailedException m))
        /\ calls = [EvGet cart (inr None); EvPut (candidate req oid stamp) pr])
  \/ (exists oid stamp m gr,
        calls = [EvGet cart (inr None);
                 EvPut (candidate req oid stamp)
                       (inl (ConditionalCheckFailedException m));
                 EvGet cart gr]).

(** Successive calls of [createOrder], as retries make them. *)
Fixpoint createOrders {W : Type} {P : Platform W} (os : list Order)
  : M W (list CreateOrderResult) :=
  match os with
  | [] => ret []
  | o :: rest =>
      let* r := createOrder o in
      let* rs := createOrders rest in
      ret (r :: rs)
  end.

(** Every record of the table is filed under its own cartId. *)
Definition keyed (w : MemWorld) : Prop :=
  forall k o, table w !! k = Some o -> cartId o = k.

Definition put_ok (ev : Event) : bool :=
  match ev with EvPut _ (inr _) => true | _ => false end.

(** Zero, a positive finite number or [Infinity]: not NaN, not negative. *)
Definition unsigned (x : number) : bool :=
  match x with
  | S754_zero false | S754_infinity false | S754_finite false _ _ => true
  | _ => false
  end.

(** The numbers of the items are well-formed doubles. *)
Definition wf_item (ci : CheckoutItem) : bool :=
  wf (ci_unitPrice ci) && wf (ci_quantity ci).

(** 10^308 cents, ten times: the product is beyond the largest double. *)
Definition cart_overflow : list CheckoutItem :=
  [cart_item "prod-1" "Bond" (10 ^ 308) 10].

(** ** Proof automation *)

(** Unfold the handler down to the platform calls. *)
Ltac run :=
  unfold handler, createOrder, capturePayment, getOrderByCartId, try_catch, bind,
    log, ret, throw, await_get, await_put, fresh_uuid, now_iso.


(** ** Facts about binary64 arithmetic *)

Section FloatFacts.

Lemma digits2_pos_log2 (p : positive) :
  Zpos (digits2_pos p) = Z.log2 (Zpos p) + 1.
Proof.
  induction p as [p IH | p IH |]; simpl digits2_pos;
    rewrite ?Pos2Z.inj_succ, ?IH; try reflexivity.
  - rewrite Pos2Z.inj_xI. rewrite Z.log2_succ_double by lia. lia.
  - rewrite Pos2Z.inj_xO. rewrite Z.log2_double by lia. lia.
Qed.

Lemma iter_pos_nat {A} (f : A -> A) (p : positive) (x : A) :
  SpecFloat.iter_pos f p x = Nat.iter (Pos.to_nat p) f x.
Proof.
  revert x. induction p as [p IH | p IH |]; intros x; simpl SpecFloat.iter_pos.
  - rewrite !IH, Pos2Nat.inj_xI. simpl Nat.iter.
    replace (Pos.to_nat p + (Pos.to_nat p + 0))%nat
      with (Pos.to_nat p + Pos.to_nat p)%nat by lia.
    rewrite Nat.iter_add. rewrite <- Nat.iter_succ_r. simpl. 
    rewrite <- Nat.iter_succ_r. reflexivity.
  - rewrite !IH, Pos2Nat.inj_xO. simpl Nat.mul.
    replace (Pos.to_nat p + (Pos.to_nat p + 0))%nat
      with (Pos.to_nat p + Pos.to_nat p)%nat by lia.
    now rewrite Nat.iter_add.
  - reflexivity.
Qed.

Lemma shr_1_spec (m : Z) (r s : bool) :
  0 <= m ->
  shr_1 {| shr_m := m; shr_r := r; shr_s := s |}
  = {| shr_m := m / 2; shr_r := Z.odd m; shr_s := r || s |}.
Proof.
  intros Hm. rewrite <- Z.div2_div.
  destruct m as [| [p | p |] |]; try reflexivity. lia.
Qed.

Lemma mod_pow2_succ (m k : Z) :
  0 <= k ->
  m mod 2 ^ (k + 1) = m mod 2 ^ k + 2 ^ k * ((m / 2 ^ k) mod 2).
Proof.
  intros Hk. rewrite Z.pow_add_r, Z.pow_1_r by lia.
  apply Z.rem_mul_r; [ | lia]. apply Z.pow_nonzero; lia.
Qed.

(** [n] single shifts divide by [2^n]; the round bit is set only above the
    half-way point, and no bit is set when the division is exact. *)
Lemma shr_iter_spec (m : Z) (n : nat) :
  0 <= m ->
  let r := Nat.iter n shr_1 {| shr_m := m; shr_r := false; shr_s := false |} in
  shr_m r = m / 2 ^ Z.of_nat n
  /\ (shr_r r = true -> 2 ^ Z.of_nat n <= 2 * (m mod 2 ^ Z.of_nat n))
  /\ (m mod 2 ^ Z.of_nat n = 0 -> shr_r r = false /\ shr_s r = false).
Proof.
  intros Hm. induction n as [| n IH].
  - simpl. rewrite Z.div_1_r.
    split; [reflexivity | split; [discriminate | intros _; split; reflexivity]].
  - cbv zeta in *. simpl Nat.iter.
    destruct (Nat.iter n shr_1 _) as [q r s]. simpl in IH.
    destruct IH as (Hq & Hr & Hs).
    assert (Hp : 0 < 2 ^ Z.of_nat n) by (apply Z.pow_pos_nonneg; lia).
    assert (Hq0 : 0 <= q) by (subst q; apply Z.div_pos; lia).
    rewrite shr_1_spec by exact Hq0. simpl.
    rewrite Nat2Z.inj_succ, <- Z.add_1_r.
    rewrite (mod_pow2_succ m (Z.of_nat n)) by lia.
    assert (Hb : 0 <= (m / 2 ^ Z.of_nat n) mod 2 < 2) by (apply Z.mod_pos_bound; lia).
    assert (Hm' : 0 <= m mod 2 ^ Z.of_nat n < 2 ^ Z.of_nat n)
      by (apply Z.mod_pos_bound; lia).
    split; [| split; [| intros H0; split]].
    + rewrite Z.pow_add_r, Z.pow_1_r by lia.
      rewrite <- Z.div_div by lia. now rewrite Hq.
    + intros Hodd. rewrite Hq in Hodd.
      rewrite Zmod_odd, Hodd.
      rewrite Z.pow_add_r, Z.pow_1_r by lia. nia.
    + assert (H2 : (m / 2 ^ Z.of_nat n) mod 2 = 0) by nia.
      rewrite Zmod_odd in H2. rewrite Hq.
      destruct (Z.odd _); [discriminate | reflexivity].
    + assert (Hz : m mod 2 ^ Z.of_nat n = 0) by nia.
      destruct (Hs Hz) as [-> ->]. reflexivity.
Qed.

Lemma shr_spec (m e n : Z) :
  0 <= m -> 0 < n ->
  exists r,
    shr {| shr_m := m; shr_r := false; shr_s := false |} e n = (r, e + n)
    /\ shr_m r = m / 2 ^ n
    /\ (shr_r r = true -> 2 ^ n <= 2 * (m mod 2 ^ n))
    /\ (m mod 2 ^ n = 0 -> shr_r r = false /\ shr_s r = false).
Proof.
  intros Hm Hn. destruct n as [| p |]; try lia.
  unfold shr. rewrite iter_pos_nat.
  eexists; split; [reflexivity |].
  rewrite <- (positive_nat_Z p).
  apply shr_iter_spec; assumption.
Qed.

Lemma shr_nop (r : shr_record) (e n : Z) : n <= 0 -> shr r e n = (r, e).
Proof. intros Hn. destruct n; try reflexivity. lia. Qed.

Lemma fexp_64 (k : Z) : fexp prec emax k = Z.max (k - 53) (-1074).
Proof. reflexivity. Qed.

Lemma pos_iter_xO (m d : positive) :
  Zpos (Pos.iter xO m d) = Zpos m * 2 ^ Zpos d.
Proof.
  rewrite <- Z.shiftl_mul_pow2 by lia. simpl Z.shiftl.
  apply (Pos.iter_swap_gen _ _ Zpos xO (Z.mul 2)). reflexivity.
Qed.

Lemma digits_mul_pow2 (m : positive) (z k : Z) :
  Zpos m = z * 2 ^ k -> 0 < z -> 0 <= k ->
  Zpos (digits2_pos m) = Z.log2 z + 1 + k.
Proof.
  intros Hm Hz Hk. rewrite digits2_pos_log2, Hm, Z.log2_mul_pow2 by lia. lia.
Qed.

(** A mantissa already in canonical position is left alone. *)
Lemma bra_canonical (s : bool) (m : positive) (e : Z) :
  fexp prec emax (Zpos (digits2_pos m) + e) = e -> e <= 971 ->
  binary_round_aux prec emax s (Zpos m) e loc_Exact = S754_finite s m e.
Proof.
  intros Hc He. unfold binary_round_aux, shr_fexp. simpl Zdigits2.
  rewrite Hc, Z.sub_diag. simpl. rewrite Hc, Z.sub_diag. simpl.
  replace (e <=? emax - prec) with true; [reflexivity |].
  symmetry. apply Z.leb_le. unfold emax, prec. lia.
Qed.

(** Trailing zero bits are shifted out without rounding. *)
Lemma bra_exact_shift (s : bool) (m q : positive) (e n : Z) :
  n = fexp prec emax (Zpos (digits2_pos m) + e) - e -> 0 < n ->
  Zpos m = Zpos q * 2 ^ n -> e + n <= 971 ->
  binary_round_aux prec emax s (Zpos m) e loc_Exact = S754_finite s q (e + n).
Proof.
  intros Hn Hpos Hm He. unfold binary_round_aux, shr_fexp.
  simpl Zdigits2. simpl shr_record_of_loc. rewrite <- Hn.
  destruct (shr_spec (Zpos m) e n) as (r & Hshr & Hq & _ & Hex); try lia.
  rewrite Hshr. destruct r as [rm rr rs]. simpl in Hq, Hex.
  assert (H2 : 0 < 2 ^ n) by (apply Z.pow_pos_nonneg; lia).
  rewrite Hm, Z.div_mul in Hq by lia.
  rewrite Hm, Z.mod_mul in Hex by lia.
  destruct (Hex eq_refl) as [-> ->]. subst rm. simpl.
  assert (Hd : Zpos (digits2_pos m) = Zpos (digits2_pos q) + n).
  { rewrite (digits_mul_pow2 m (Zpos q) n), digits2_pos_log2 by lia. lia. }
  assert (Hf : fexp prec emax (Zpos (digits2_pos q) + (e + n)) = e + n).
  { replace (Zpos (digits2_pos q) + (e + n)) with (Zpos (digits2_pos m) + e) by lia.
    lia. }
  rewrite Hf, Z.sub_diag. simpl.
  replace (e + n <=? emax - prec) with true; [reflexivity |].
  symmetry. apply Z.leb_le. unfold emax, prec. lia.
Qed.

Lemma log2_bound_53 (z : Z) : 0 < z < 2 ^ 53 -> 0 <= Z.log2 z < 53.
Proof.
  intros Hz. split; [apply Z.log2_nonneg |].
  apply Z.log2_lt_pow2; lia.
Qed.

Lemma bra_int (s : bool) (m : positive) (z k : Z) :
  Zpos m = z * 2 ^ k -> 0 < z < 2 ^ 53 -> 0 <= k ->
  0 <= Z.log2 z + 1 - 53 + k ->
  binary_round_aux prec emax s (Zpos m) (- k) loc_Exact = canon s z.
Proof.
  intros Hm Hz Hk Hn. pose proof (log2_bound_53 z Hz) as Hl.
  pose proof (digits_mul_pow2 m z k Hm ltac:(lia) Hk) as Hd.
  assert (Hf : fexp prec emax (Zpos (digits2_pos m) + - k) = Z.log2 z + 1 - 53).
  { rewrite fexp_64, Hd. lia. }
  unfold canon.
  destruct (Z.eq_dec (Z.log2 z + 1 - 53 + k) 0) as [H0 | H0].
  - replace (53 - (Z.log2 z + 1)) with k by lia.
    replace (Z.log2 z + 1 - 53) with (- k) by lia.
    rewrite <- Hm. simpl Z.to_pos. apply bra_canonical; lia.
  - set (n := Z.log2 z + 1 - 53 + k) in *.
    assert (Hp : 0 < z * 2 ^ (53 - (Z.log2 z + 1))).
    { apply Z.mul_pos_pos; [lia | apply Z.pow_pos_nonneg; lia]. }
    replace (Z.log2 z + 1 - 53) with (- k + n) by lia.
    apply bra_exact_shift; try lia.
    rewrite Z2Pos.id, Hm by lia.
    rewrite <- Z.mul_assoc, <- Z.pow_add_r by lia. do 2 f_equal. lia.
Qed.

Lemma binary_round_int (s : bool) (m : positive) (z k : Z) :
  Zpos m = z * 2 ^ k -> 0 < z < 2 ^ 53 -> 0 <= k ->
  binary_round prec emax s m (- k) = canon s z.
Proof.
  intros Hm Hz Hk. pose proof (log2_bound_53 z Hz) as Hl.
  pose proof (digits_mul_pow2 m z k Hm ltac:(lia) Hk) as Hd.
  unfold binary_round, shl_align.
  assert (Hf : fexp prec emax (Zpos (digits2_pos m) + - k) = Z.log2 z + 1 - 53).
  { rewrite fexp_64, Hd. lia. }
  rewrite Hf.
  destruct (Z.log2 z + 1 - 53 - - k) as [| d | d] eqn:Hn.
  - apply (bra_int s m z k); lia.
  - apply (bra_int s m z k); lia.
  - assert (Hm' : Zpos (Pos.iter xO m d) = z * 2 ^ (53 - (Z.log2 z + 1))).
    { rewrite pos_iter_xO, Hm, <- Z.mul_assoc, <- Z.pow_add_r by lia.
      do 2 f_equal. lia. }
    unfold canon. rewrite <- Hm'. simpl Z.to_pos.
    apply bra_canonical; [| lia].
    rewrite fexp_64, (digits_mul_pow2 _ z (53 - (Z.log2 z + 1))) by lia. lia.
Qed.

Lemma of_Z_canon (z : Z) : 0 < z < 2 ^ 53 -> of_Z z = canon false z.
Proof.
  intros Hz. destruct z as [| p |]; try lia.
  unfold of_Z, binary_normalize.
  apply (binary_round_int false p (Zpos p) 0); lia.
Qed.

Lemma canon_mantissa (z : Z) :
  0 < z < 2 ^ 53 ->
  Zpos (Z.to_pos (z * 2 ^ (53 - (Z.log2 z + 1)))) = z * 2 ^ (53 - (Z.log2 z + 1)).
Proof.
  intros Hz. pose proof (log2_bound_53 z Hz).
  apply Z2Pos.id. apply Z.mul_pos_pos; [lia | apply Z.pow_pos_nonneg; lia].
Qed.

(** Products of integers are exact below [2^53]. *)
Lemma mul_of_Z (a b : Z) :
  0 < a -> 0 < b -> a * b < 2 ^ 53 ->
  mul (of_Z a) (of_Z b) = of_Z (a * b).
Proof.
  intros Ha Hb Hab.
  assert (Ha' : 0 < a < 2 ^ 53) by nia.
  assert (Hb' : 0 < b < 2 ^ 53) by nia.
  assert (Hab' : 0 < a * b < 2 ^ 53) by nia.
  rewrite !of_Z_canon by assumption.
  pose proof (log2_bound_53 a Ha'). pose proof (log2_bound_53 b Hb').
  pose proof (Z.log2_mul_below a b Ha Hb).
  unfold canon at 1 2. unfold mul. cbv beta iota delta [SFmul xorb].
  replace (Z.log2 a + 1 - 53 + (Z.log2 b + 1 - 53))
    with (- ((53 - (Z.log2 a + 1)) + (53 - (Z.log2 b + 1)))) by lia.
  apply bra_int; try lia.
  rewrite Pos2Z.inj_mul, !canon_mantissa by assumption.
  rewrite Z.pow_add_r by lia. ring.
Qed.

Lemma shl_align_fst (m : positive) (e e' : Z) :
  e' <= e -> Zpos (fst (shl_align m e e')) = Zpos m * 2 ^ (e - e').
Proof.
  intros He. unfold shl_align.
  destruct (e' - e) as [| d | d] eqn:Hd; try lia; simpl fst.
  - replace (e - e') with 0 by lia. lia.
  - rewrite pos_iter_xO. do 2 f_equal. lia.
Qed.

(** Sums of non-negative integers are exact below [2^53]. *)
Lemma add_of_Z (a b : Z) :
  0 <= a -> 0 <= b -> a + b < 2 ^ 53 ->
  add (of_Z a) (of_Z b) = of_Z (a + b).
Proof.
  intros Ha Hb Hab.
  destruct (Z.eq_dec a 0) as [-> | Ha0].
  { rewrite Z.add_0_l. destruct (Z.eq_dec b 0) as [-> | Hb0]; [reflexivity |].
    rewrite (of_Z_canon b) by lia. reflexivity. }
  destruct (Z.eq_dec b 0) as [-> | Hb0].
  { rewrite Z.add_0_r. rewrite (of_Z_canon a) by lia. reflexivity. }
  assert (Ha' : 0 < a < 2 ^ 53) by lia.
  assert (Hb' : 0 < b < 2 ^ 53) by lia.
  rewrite !of_Z_canon by lia.
  pose proof (log2_bound_53 a Ha'). pose proof (log2_bound_53 b Hb').
  unfold canon at 1 2. unfold add. cbv beta iota zeta delta [SFadd].
  set (ea := Z.log2 a + 1 - 53). set (eb := Z.log2 b + 1 - 53).
  set (ez := Z.min ea eb).
  rewrite !shl_align_fst by lia. simpl cond_Zopp.
  rewrite !canon_mantissa by assumption.
  assert (Hsum : a * 2 ^ (53 - (Z.log2 a + 1)) * 2 ^ (ea - ez)
                 + b * 2 ^ (53 - (Z.log2 b + 1)) * 2 ^ (eb - ez)
                 = (a + b) * 2 ^ (- ez)).
  { rewrite <- !Z.mul_assoc, <- !Z.pow_add_r by lia.
    replace (53 - (Z.log2 a + 1) + (ea - ez)) with (- ez) by lia.
    replace (53 - (Z.log2 b + 1) + (eb - ez)) with (- ez) by lia. ring. }
  rewrite Hsum.
  assert (Hp : 0 < (a + b) * 2 ^ (- ez)).
  { apply Z.mul_pos_pos; [lia | apply Z.pow_pos_nonneg; lia]. }
  destruct ((a + b) * 2 ^ (- ez)) as [| p |] eqn:Hs; try lia.
  unfold binary_normalize.
  replace ez with (- (- ez)) at 1 by lia.
  apply (binary_round_int false p (a + b) (- ez)); lia.
Qed.

Lemma to_Z_canon (z : Z) : 0 < z < 2 ^ 53 -> to_Z (canon false z) = z.
Proof.
  intros Hz. pose proof (log2_bound_53 z Hz) as Hl.
  unfold canon, to_Z, floorZ. rewrite canon_mantissa by assumption.
  simpl cond_Zopp.
  destruct (0 <=? Z.log2 z + 1 - 53) eqn:He.
  - apply Z.leb_le in He.
    replace (Z.log2 z + 1 - 53) with 0 by lia.
    replace (53 - (Z.log2 z + 1)) with 0 by lia. lia.
  - replace (- (Z.log2 z + 1 - 53)) with (53 - (Z.log2 z + 1)) by lia.
    apply Z.div_mul. apply Z.pow_nonzero; lia.
Qed.

Lemma isInteger_canon (z : Z) : 0 < z < 2 ^ 53 -> isInteger (canon false z) = true.
Proof.
  intros Hz. pose proof (log2_bound_53 z Hz) as Hl.
  unfold canon, isInteger. rewrite canon_mantissa by assumption.
  apply orb_true_iff. right. apply Z.eqb_eq.
  replace (- (Z.log2 z + 1 - 53)) with (53 - (Z.log2 z + 1)) by lia.
  apply Z.mod_mul. apply Z.pow_nonzero; lia.
Qed.

Lemma nonneg_integer_of_Z (z : Z) :
  0 <= z < 2 ^ 53 -> nonneg_integer (of_Z z) = true.
Proof.
  intros Hz. destruct (Z.eq_dec z 0) as [-> | Hz0]; [reflexivity |].
  rewrite of_Z_canon by lia. unfold nonneg_integer.
  rewrite isInteger_canon by lia. reflexivity.
Qed.

Lemma to_Z_of_Z (z : Z) : 0 <= z < 2 ^ 53 -> to_Z (of_Z z) = z.
Proof.
  intros Hz. destruct (Z.eq_dec z 0) as [-> | Hz0]; [reflexivity |].
  rewrite of_Z_canon by lia. apply to_Z_canon. lia.
Qed.

(** A well-formed positive integral number below [2^53] is the canonical
    representation of its value. *)
Lemma positive_integer_canon (x : number) :
  wf x = true -> isInteger x = true -> ltb (of_Z 0) x = true ->
  to_Z x < 2 ^ 53 ->
  0 < to_Z x /\ x = of_Z (to_Z x).
Proof.
  intros Hwf Hint Hpos Hlt.
  destruct x as [s | s | | s m e]; try discriminate.
  destruct s; [discriminate |].
  unfold wf, valid_binary, bounded, canonical_mantissa in Hwf.
  apply andb_true_iff in Hwf. destruct Hwf as [Hc He].
  apply Z.eqb_eq in Hc. apply Z.leb_le in He.
  rewrite fexp_64 in Hc. rewrite digits2_pos_log2 in Hc.
  pose proof (Z.log2_nonneg (Zpos m)) as Hl0.
  pose proof (Z.log2_spec (Zpos m) ltac:(lia)) as Hlog.
  unfold to_Z, floorZ in *. simpl cond_Zopp in *. unfold isInteger in Hint.
  destruct (0 <=? e) eqn:He0.
  - apply Z.leb_le in He0.
    assert (Hd : Z.log2 (Zpos m) = 52) by lia.
    rewrite Hd in Hlog.
    pose proof (Z.pow_pos_nonneg 2 e ltac:(lia) He0) as H2e.
    assert (e = 0).
    { destruct (Z.eq_dec e 0) as [| Hne]; [assumption |].
      assert (2 ^ 1 <= 2 ^ e) by (apply Z.pow_le_mono_r; lia).
      change (2 ^ 1) with 2 in *. change (2 ^ 52) with 4503599627370496 in *.
      change (2 ^ 53) with 9007199254740992 in *. nia. }
    subst e. rewrite Z.pow_0_r, Z.mul_1_r in *.
    split; [lia |]. rewrite of_Z_canon by lia. unfold canon.
    rewrite Hd. change (53 - (52 + 1)) with 0. change (52 + 1 - 53) with 0.
    rewrite Z.pow_0_r, Z.mul_1_r. reflexivity.
  - apply Z.leb_gt in He0. simpl in Hint. apply Z.eqb_eq in Hint.
    assert (Hp : 0 < 2 ^ (- e)) by (apply Z.pow_pos_nonneg; lia).
    apply Z.div_exact in Hint; [| lia].
    set (z := Zpos m / 2 ^ (- e)) in *.
    assert (Hz : 0 < z) by nia.
    assert (Hm : Zpos m = z * 2 ^ (- e)) by lia.
    split; [assumption |].
    rewrite of_Z_canon by lia. unfold canon.
    rewrite Hm, Z.log2_mul_pow2 in Hc by lia.
    pose proof (log2_bound_53 z ltac:(lia)).
    assert (He' : e = Z.log2 z + 1 - 53) by lia.
    replace (53 - (Z.log2 z + 1)) with (- e) by lia.
    rewrite <- Hm, <- He'. reflexivity.
Qed.

Lemma round_nearest_even_cases (r : shr_record) :
  let m1 := round_nearest_even (shr_m r) (loc_of_shr_record r) in
  m1 = shr_m r \/ (m1 = shr_m r + 1 /\ shr_r r = true).
Proof.
  destruct r as [q [|] [|]]; simpl; auto.
  destruct (Z.even q); auto.
Qed.

(** Rounding a long mantissa to 53 bits, then taking the floor: the rounded
    mantissa is the truncated one, or its successor when the dropped bits
    reach the half-way point. *)
Lemma bra_round_floor (m : positive) (e : Z) :
  let n := Z.log2 (Zpos m) + 1 - 53 in
  let q := Zpos m / 2 ^ n in
  0 < n -> -1074 <= e + n -> e + n < -1 ->
  exists m1,
    Math_floor (binary_round_aux prec emax false (Zpos m) e loc_Exact)
    = of_Z (m1 / 2 ^ (- (e + n)))
    /\ (m1 = q \/ (m1 = q + 1 /\ 2 ^ n <= 2 * (Zpos m mod 2 ^ n))).
Proof.
  intros n q Hn Hlo Hhi.
  pose proof (Z.log2_spec (Zpos m) ltac:(lia)) as Hlog.
  assert (HN : 0 < 2 ^ n) by (apply Z.pow_pos_nonneg; lia).
  replace (Z.log2 (Zpos m)) with (52 + n) in Hlog by lia.
  replace (Z.succ (52 + n)) with (53 + n) in Hlog by lia.
  rewrite !Z.pow_add_r in Hlog by lia.
  assert (Hq : 2 ^ 52 <= q < 2 ^ 53).
  { split; [apply Z.div_le_lower_bound | apply Z.div_lt_upper_bound]; lia. }
  unfold binary_round_aux, shr_fexp. simpl Zdigits2. simpl shr_record_of_loc.
  rewrite fexp_64, digits2_pos_log2.
  replace (Z.max (Z.log2 (Zpos m) + 1 + e - 53) (-1074) - e) with n by lia.
  destruct (shr_spec (Zpos m) e n) as (r & Hshr & Hrm & Hrr & _); try lia.
  rewrite Hshr.
  pose proof (round_nearest_even_cases r) as Hcases. cbv zeta in Hcases.
  set (m1 := round_nearest_even (shr_m r) (loc_of_shr_record r)) in *.
  rewrite Hrm in Hcases. fold q in Hcases.
  exists m1. split.
  2:{ destruct Hcases as [H | [H H']]; [left | right]; auto. }
  assert (Hm1 : 2 ^ 52 <= m1 <= 2 ^ 53).
  { clearbody m1. clear -Hcases Hq. clearbody q. destruct Hcases as [-> | [-> _]]; lia. }
  destruct m1 as [| p1 |] eqn:Ep1; try lia.
  simpl Zdigits2. rewrite fexp_64, digits2_pos_log2.
  destruct (Z.eq_dec (Zpos p1) (2 ^ 53)) as [Htop | Htop].
  - rewrite Htop. change (Z.log2 (2 ^ 53)) with 53.
    replace (Z.max (53 + 1 + (e + n) - 53) (-1074) - (e + n)) with 1 by lia.
    change (shr {| shr_m := 2 ^ 53; shr_r := false; shr_s := false |} (e + n) 1)
      with ({| shr_m := Zpos 4503599627370496; shr_r := false; shr_s := false |},
            e + n + 1).
    cbv beta iota. simpl shr_m. cbv iota.
    replace (e + n + 1 <=? emax - prec) with true
      by (symmetry; apply Z.leb_le; unfold emax, prec; lia).
    unfold Math_floor, floorZ, of_Z.
    replace (0 <=? e + n + 1) with false by (symmetry; apply Z.leb_gt; lia).
    simpl cond_Zopp. f_equal.
    change (Zpos 4503599627370496) with (2 ^ 52).
    replace (- (e + n)) with (- (e + n + 1) + 1) by lia.
    rewrite (Z.pow_add_r 2 (- (e + n + 1)) 1) by lia.
    change (2 ^ 53) with (2 ^ 52 * 2 ^ 1).
    rewrite Z.div_mul_cancel_r; [reflexivity | | lia].
    apply Z.pow_nonzero; lia.
  - assert (Hl : Z.log2 (Zpos p1) = 52).
    { apply Z.log2_unique; [lia |]. change (Z.succ 52) with 53. lia. }
    rewrite Hl.
    replace (Z.max (52 + 1 + (e + n) - 53) (-1074) - (e + n)) with 0 by lia.
    rewrite shr_nop by lia.
    cbv beta iota. simpl shr_m. cbv iota.
    replace (e + n <=? emax - prec) with true
      by (symmetry; apply Z.leb_le; unfold emax, prec; lia).
    unfold Math_floor, floorZ, of_Z.
    replace (0 <=? e + n) with false by (symmetry; apply Z.leb_gt; lia).
    reflexivity.
Qed.

Lemma lit_0_08_value : lit_0_08 = S754_finite false 5764607523034235 (-56).
Proof. reflexivity. Qed.

(** The floor of the rounded product [s * 0.08] is the exact floor of
    [8 s / 100] for every integer subtotal [0 < s < 2^52]. *)
Lemma tax_floor (s : Z) :
  0 < s < 2 ^ 52 ->
  Math_floor (mul (of_Z s) lit_0_08) = of_Z (exact_tax s).
Proof.
  intros Hs.
  assert (Hs53 : 0 < s < 2 ^ 53) by lia.
  pose proof (log2_bound_53 s Hs53) as Hls.
  assert (Hls' : Z.log2 s < 52) by (apply Z.log2_lt_pow2; lia).
  rewrite of_Z_canon, lit_0_08_value by assumption.
  unfold canon, mul. cbv beta iota delta [SFmul xorb].
  set (a := 53 - (Z.log2 s + 1)).
  set (M := 5764607523034235%positive).
  set (ms := Z.to_pos (s * 2 ^ a)).
  assert (HA : 0 < 2 ^ a) by (apply Z.pow_pos_nonneg; lia).
  assert (HP : Zpos (ms * M) = s * Zpos M * 2 ^ a).
  { rewrite Pos2Z.inj_mul. unfold ms. rewrite Z2Pos.id by nia. ring. }
  set (L := Z.log2 (s * Zpos M)).
  assert (HL : 52 <= L <= 104).
  { unfold L. split.
    - change 52 with (Z.log2 (Zpos M)). apply Z.log2_le_mono. nia.
    - assert (Z.log2 (s * Zpos M) < 105); [| lia].
      apply Z.log2_lt_pow2; [nia |].
      change (2 ^ 105) with (2 ^ 52 * 2 ^ 53).
      apply Z.mul_lt_mono_nonneg; lia. }
  assert (HLs : Z.log2 s + 52 <= L).
  { unfold L. change 52 with (Z.log2 (Zpos M)). apply Z.log2_mul_below; lia. }
  assert (HlogP : Z.log2 (Zpos (ms * M)) = L + a).
  { rewrite HP, Z.log2_mul_pow2; unfold a; try lia. }
  destruct (bra_round_floor (ms * M) (Z.log2 s + 1 - 53 + -56))
    as (m1 & Hfl & Hm1); try (rewrite HlogP; unfold a; lia).
  rewrite Hfl. f_equal. clear Hfl.
  rewrite HlogP in *.
  set (n := L + a + 1 - 53) in *.
  replace (- (Z.log2 s + 1 - 53 + -56 + n)) with (108 - L) by (unfold n, a; lia).
  set (w := 108 - L).
  assert (HN : 0 < 2 ^ n) by (apply Z.pow_pos_nonneg; unfold n, a; lia).
  assert (HW : 16 <= 2 ^ w).
  { change 16 with (2 ^ 4). apply Z.pow_le_mono_r; unfold w; lia. }
  assert (HNW : 2 ^ n * 2 ^ w = 2 ^ a * 2 ^ 56).
  { rewrite <- !Z.pow_add_r by (unfold n, w, a; lia). f_equal. unfold n, w. lia. }
  rewrite HP in Hm1.
  unfold exact_tax.
  pose proof (Z.div_mod (s * 8) 100 ltac:(lia)) as Hg.
  pose proof (Z.mod_pos_bound (s * 8) 100 ltac:(lia)) as Hg'.
  set (g := s * 8 / 100) in *.
  pose proof (Z.div_mod (s * Zpos M * 2 ^ a) (2 ^ n) ltac:(lia)) as Hq.
  pose proof (Z.mod_pos_bound (s * Zpos M * 2 ^ a) (2 ^ n) HN) as Hq'.
  set (q := s * Zpos M * 2 ^ a / 2 ^ n) in *.
  set (rem := (s * Zpos M * 2 ^ a) mod 2 ^ n) in *.
  change (2 ^ 52) with 4503599627370496 in *.
  change (2 ^ 56) with 72057594037927936 in *.
  unfold M in *. clearbody g q rem. clear HlogP HP ms HLs HL.
  clearbody n w. 
  set (A := 2 ^ a) in *. set (N := 2 ^ n) in *. set (W := 2 ^ w) in *.
  clearbody A N W. clear a Hls Hls' Hs53.
  assert (HgN : forall k, N * (k * W) = k * 72057594037927936 * A).
  { intros k. replace (N * (k * W)) with (k * (N * W)) by ring.
    rewrite HNW. ring. }
  assert (Hlo : g * W <= q).
  { assert (H1 : g * 72057594037927936 * A <= s * 5764607523034235 * A)
      by (apply Z.mul_le_mono_nonneg_r; lia).
    rewrite <- HgN in H1.
    assert (H2 : N * (g * W) < N * (q + 1)) by lia.
    apply Z.mul_lt_mono_pos_l in H2; lia. }
  assert (Hq1 : q < (g + 1) * W).
  { assert (H1 : s * 5764607523034235 * A < (g + 1) * 72057594037927936 * A)
      by (apply Z.mul_lt_mono_pos_r; lia).
    rewrite <- HgN in H1.
    assert (H2 : N * q < N * ((g + 1) * W)) by lia.
    apply Z.mul_lt_mono_pos_l in H2; lia. }
  assert (Hhi : m1 < (g + 1) * W).
  { destruct Hm1 as [-> | [-> Hhalf]]; [assumption |].
    destruct (Z_lt_le_dec (q + 1) ((g + 1) * W)) as [| Hge]; [assumption |].
    exfalso.
    assert (HT : N * (q + 1) = N * ((g + 1) * W)) by (f_equal; lia).
    rewrite HgN in HT.
    assert (H16 : 16 * N <= N * W) by nia.
    assert (H2 : (2 * s * 5764607523034235 + 4503599627370496) * A
                 < 2 * (g + 1) * 72057594037927936 * A)
      by (apply Z.mul_lt_mono_pos_r; lia).
    lia. }
  symmetry. apply Z.div_unique with (r := m1 - g * W); nia.
Qed.

(** Up to [2^53] the floor of the rounded product is still an integer within
    one of the exact floor: the exact one, or its successor. *)
Lemma tax_near_floor (s : Z) :
  0 < s < 2 ^ 53 ->
  exists t, Math_floor (mul (of_Z s) lit_0_08) = of_Z t
            /\ exact_tax s <= t <= exact_tax s + 1.
Proof.
  intros Hs.
  pose proof (log2_bound_53 s Hs) as Hls.
  rewrite of_Z_canon, lit_0_08_value by assumption.
  unfold canon, mul. cbv beta iota delta [SFmul xorb].
  set (a := 53 - (Z.log2 s + 1)).
  set (M := 5764607523034235%positive).
  set (ms := Z.to_pos (s * 2 ^ a)).
  assert (HA : 0 < 2 ^ a) by (apply Z.pow_pos_nonneg; lia).
  assert (HP : Zpos (ms * M) = s * Zpos M * 2 ^ a).
  { rewrite Pos2Z.inj_mul. unfold ms. rewrite Z2Pos.id by nia. ring. }
  set (L := Z.log2 (s * Zpos M)).
  assert (HL : 52 <= L <= 105).
  { unfold L. split.
    - change 52 with (Z.log2 (Zpos M)). apply Z.log2_le_mono. nia.
    - assert (Z.log2 (s * Zpos M) < 106); [| lia].
      apply Z.log2_lt_pow2; [nia |].
      change (2 ^ 106) with (2 ^ 53 * 2 ^ 53).
      apply Z.mul_lt_mono_nonneg; lia. }
  assert (HLs : Z.log2 s + 52 <= L).
  { unfold L. change 52 with (Z.log2 (Zpos M)). apply Z.log2_mul_below; lia. }
  assert (HlogP : Z.log2 (Zpos (ms * M)) = L + a).
  { rewrite HP, Z.log2_mul_pow2; unfold a; try lia. }
  destruct (bra_round_floor (ms * M) (Z.log2 s + 1 - 53 + -56))
    as (m1 & Hfl & Hm1); try (rewrite HlogP; unfold a; lia).
  rewrite HlogP in *.
  set (n := L + a + 1 - 53) in *.
  replace (- (Z.log2 s + 1 - 53 + -56 + n)) with (108 - L) in Hfl
    by (unfold n, a; lia).
  set (w := 108 - L) in *.
  exists (m1 / 2 ^ w). split; [exact Hfl |]. clear Hfl.
  assert (HN : 0 < 2 ^ n) by (apply Z.pow_pos_nonneg; unfold n, a; lia).
  assert (HW : 8 <= 2 ^ w).
  { change 8 with (2 ^ 3). apply Z.pow_le_mono_r; unfold w; lia. }
  assert (HNW : 2 ^ n * 2 ^ w = 2 ^ a * 2 ^ 56).
  { rewrite <- !Z.pow_add_r by (unfold n, w, a; lia). f_equal. unfold n, w. lia. }
  rewrite HP in Hm1.
  unfold exact_tax.
  pose proof (Z.div_mod (s * 8) 100 ltac:(lia)) as Hg.
  pose proof (Z.mod_pos_bound (s * 8) 100 ltac:(lia)) as Hg'.
  set (g := s * 8 / 100) in *.
  pose proof (Z.div_mod (s * Zpos M * 2 ^ a) (2 ^ n) ltac:(lia)) as Hq.
  pose proof (Z.mod_pos_bound (s * Zpos M * 2 ^ a) (2 ^ n) HN) as Hq'.
  set (q := s * Zpos M * 2 ^ a / 2 ^ n) in *.
  set (rem := (s * Zpos M * 2 ^ a) mod 2 ^ n) in *.
  change (2 ^ 53) with 9007199254740992 in *.
  change (2 ^ 56) with 72057594037927936 in *.
  unfold M in *. clearbody g q rem. clear HlogP HP ms HLs HL.
  clearbody n w.
  set (A := 2 ^ a) in *. set (N := 2 ^ n) in *. set (W := 2 ^ w) in *.
  clearbody A N W. clear a Hls.
  assert (HgN : forall k, N * (k * W) = k * 72057594037927936 * A).
  { intros k. replace (N * (k * W)) with (k * (N * W)) by ring.
    rewrite HNW. ring. }
  assert (Hlo : g * W <= q).
  { assert (H1 : g * 72057594037927936 * A <= s * 5764607523034235 * A)
      by (apply Z.mul_le_mono_nonneg_r; lia).
    rewrite <- HgN in H1.
    assert (H2 : N * (g * W) < N * (q + 1)) by lia.
    apply Z.mul_lt_mono_pos_l in H2; lia. }
  assert (Hhi : q + 1 < (g + 2) * W).
  { assert (H8 : 8 * N <= N * W) by nia.
    assert (H1 : (s * 5764607523034235 + 9007199254740992) * A
                 < (g + 2) * 72057594037927936 * A)
      by (apply Z.mul_lt_mono_pos_r; lia).
    rewrite <- HgN in H1.
    assert (H2 : N * (q + 1) < N * ((g + 2) * W)) by lia.
    apply Z.mul_lt_mono_pos_l in H2; lia. }
  assert (Hm : g * W <= m1 < (g + 2) * W)
    by (destruct Hm1 as [-> | [-> _]]; lia).
  split.
  - apply Z.div_le_lower_bound; lia.
  - assert (m1 / W < g + 2); [| lia].
    apply Z.div_lt_upper_bound; lia.
Qed.

End FloatFacts.

(** ** The pricing engine *)

Section Pricing.

Lemma to_Z_positive (x : number) :
  isInteger x = true -> ltb (of_Z 0) x = true -> 0 < to_Z x.
Proof.
  intros Hint Hpos. destruct x as [s | s | | s m e]; try discriminate.
  destruct s; [discriminate |].
  unfold to_Z, floorZ. simpl cond_Zopp. unfold isInteger in Hint.
  destruct (0 <=? e) eqn:He.
  - apply Z.leb_le in He. apply Z.mul_pos_pos; [lia |].
    apply Z.pow_pos_nonneg; lia.
  - apply Z.leb_gt in He. simpl in Hint. apply Z.eqb_eq in Hint.
    assert (Hp : 0 < 2 ^ (- e)) by (apply Z.pow_pos_nonneg; lia).
    apply Z.div_exact in Hint; [| lia]. nia.
Qed.

Lemma leb_one_positive (x : number) :
  leb (of_Z 1) x = true -> isInteger x = true -> ltb (of_Z 0) x = true.
Proof.
  destruct x as [s | s | | s m e]; try discriminate.
  destruct s; [discriminate | reflexivity].
Qed.

Lemma valid_item_values (it : CheckoutItem) :
  valid_item it = true ->
  0 < to_Z (ci_unitPrice it) /\ 0 < to_Z (ci_quantity it)
  /\ (to_Z (ci_unitPrice it) < 2 ^ 53 ->
      ci_unitPrice it = of_Z (to_Z (ci_unitPrice it)))
  /\ (to_Z (ci_quantity it) < 2 ^ 53 ->
      ci_quantity it = of_Z (to_Z (ci_quantity it))).
Proof.
  unfold valid_item. rewrite !andb_true_iff.
  intros [[[[[Hwu Hiu] Hpu] Hwq] Hiq] Hpq].
  pose proof (leb_one_positive _ Hpq Hiq) as Hpq'.
  split; [now apply to_Z_positive |].
  split; [now apply to_Z_positive |].
  split; intros Hlt; now apply positive_integer_canon.
Qed.

Lemma exact_subtotal_nonneg (its : list CheckoutItem) :
  forallb valid_item its = true -> 0 <= exact_subtotal its.
Proof.
  induction its as [| it rest IH]; simpl; [lia |].
  rewrite andb_true_iff. intros [Hit Hrest].
  destruct (valid_item_values it Hit) as (Hu & Hq & _). specialize (IH Hrest). nia.
Qed.

Lemma exact_subtotal_positive (its : list CheckoutItem) :
  valid_items its -> 0 < exact_subtotal its.
Proof.
  intros [Hne Hall]. destruct its as [| it rest]; [congruence |].
  simpl in *. apply andb_true_iff in Hall. destruct Hall as [Hit Hrest].
  destruct (valid_item_values it Hit) as (Hu & Hq & _).
  pose proof (exact_subtotal_nonneg rest Hrest). nia.
Qed.

(** One line: the product is exact. *)
Lemma priceItem_exact (it : CheckoutItem) :
  valid_item it = true ->
  to_Z (ci_unitPrice it) * to_Z (ci_quantity it) < 2 ^ 53 ->
  priceItem it = exact_priceItem it.
Proof.
  intros Hit Hlt. destruct (valid_item_values it Hit) as (Hu & Hq & Hcu & Hcq).
  unfold priceItem, exact_priceItem. f_equal.
  rewrite Hcu at 1 by nia. rewrite Hcq at 1 by nia.
  apply mul_of_Z; assumption.
Qed.

Lemma map_priceItem_exact (its : list CheckoutItem) :
  forallb valid_item its = true -> exact_subtotal its < 2 ^ 53 ->
  List.map priceItem its = List.map exact_priceItem its.
Proof.
  induction its as [| it rest IH]; simpl; [reflexivity |].
  rewrite andb_true_iff. intros [Hit Hrest] Hlt.
  destruct (valid_item_values it Hit) as (Hu & Hq & _).
  pose proof (exact_subtotal_nonneg rest Hrest).
  rewrite priceItem_exact, IH by (assumption || nia). reflexivity.
Qed.

(** The running sum of the [reduce] is exact. *)
Lemma fold_subtotal_exact (its : list CheckoutItem) (acc : Z) :
  forallb valid_item its = true -> 0 <= acc ->
  acc + exact_subtotal its < 2 ^ 53 ->
  fold_left (fun sum item => add sum (lineTotal item))
            (List.map exact_priceItem its) (of_Z acc)
  = of_Z (acc + exact_subtotal its).
Proof.
  revert acc. induction its as [| it rest IH]; intros acc; simpl.
  - intros _ _ _. now rewrite Z.add_0_r.
  - rewrite andb_true_iff. intros [Hit Hrest] Hacc Hlt.
    destruct (valid_item_values it Hit) as (Hu & Hq & _).
    pose proof (exact_subtotal_nonneg rest Hrest).
    rewrite add_of_Z by nia.
    rewrite IH by (assumption || nia). f_equal. lia.
Qed.

Lemma subtotal_exact (its : list CheckoutItem) :
  forallb valid_item its = true -> exact_subtotal its < 2 ^ 53 ->
  pr_subtotal (calculatePricing its) = of_Z (exact_subtotal its).
Proof.
  intros Hall Hlt. unfold calculatePricing. simpl pr_subtotal.
  rewrite map_priceItem_exact by assumption.
  apply (fold_subtotal_exact its 0); [assumption | lia | lia].
Qed.

Lemma exact_tax_bounds (s : Z) : 0 <= s -> 0 <= exact_tax s <= s.
Proof.
  intros Hs. unfold exact_tax. split.
  - apply Z.div_pos; lia.
  - apply Z.div_le_upper_bound; lia.
Qed.

End Pricing.

(** ** The regular expression for cart identifiers *)

Section UuidShape.

Import Regex.

Lemma hex_digitb_spec (c : ascii) : hex_digitb c = true <-> hex_digit c.
Proof.
  unfold hex_digitb, hex_digit. rewrite existsb_exists. split.
  - intros (x & Hin & Heq). apply Ascii.eqb_eq in Heq. now subst.
  - intros Hin. exists c. split; [assumption | apply Ascii.eqb_refl].
Qed.

Lemma hex_class_test (c : ascii) : class_test true hex_class c = hex_digitb c.
Proof. destruct c as [[] [] [] [] [] [] [] []]; reflexivity. Qed.

Lemma dash_class_test (c : ascii) :
  class_test true dash_class c = Ascii.eqb c "-".
Proof. destruct c as [[] [] [] [] [] [] [] []]; reflexivity. Qed.

Lemma match_rep_sound (i : bool) (cl : class) (n : nat) (s rest : string) :
  match_rep i cl n s = Some rest ->
  exists g, s = (g ++ rest)%string /\ String.length g = n
            /\ Forall (fun c => class_test i cl c = true) (list_ascii_of_string g).
Proof.
  revert s. induction n as [| n IH]; intros s; simpl.
  - intros [= ->]. exists EmptyString. repeat split. constructor.
  - destruct s as [| c s']; [discriminate |].
    destruct (class_test i cl c) eqn:Hc; [| discriminate].
    intros H. destruct (IH _ H) as (g & -> & Hlen & Hall).
    exists (String c g). simpl. repeat split; [congruence |].
    constructor; assumption.
Qed.

Lemma match_rep_complete (i : bool) (cl : class) (g rest : string) :
  Forall (fun c => class_test i cl c = true) (list_ascii_of_string g) ->
  match_rep i cl (String.length g) (g ++ rest) = Some rest.
Proof.
  induction g as [| c g IH]; simpl; intros Hall; [reflexivity |].
  inversion Hall as [| ? ? Hc Hg]; subst. rewrite Hc. now apply IH.
Qed.

Lemma match_atoms_group (i : bool) (cl : class) (n : nat) (g rest : string)
      (ats : list (class * nat)) :
  String.length g = n ->
  Forall (fun c => class_test i cl c = true) (list_ascii_of_string g) ->
  match_atoms i ((cl, n) :: ats) (g ++ rest) = match_atoms i ats rest.
Proof.
  intros <- Hall. simpl. now rewrite match_rep_complete.
Qed.

Lemma hex_group_class (n : nat) (g : string) :
  hex_group n g <->
  String.length g = n
  /\ Forall (fun c => class_test true hex_class c = true) (list_ascii_of_string g).
Proof.
  assert (Hc : forall c, hex_digit c <-> class_test true hex_class c = true).
  { intros c. rewrite hex_class_test. symmetry. apply hex_digitb_spec. }
  unfold hex_group. split; intros [Hl Hall]; (split; [assumption |]);
    revert Hall; apply List.Forall_impl; intros c; apply Hc.
Qed.

Lemma dash_group (g : string) :
  String.length g = 1%nat ->
  Forall (fun c => class_test true dash_class c = true) (list_ascii_of_string g) ->
  g = "-".
Proof.
  destruct g as [| c [| ? ?]]; try discriminate. intros _ Hall.
  inversion Hall as [| ? ? Hc _]; subst.
  rewrite dash_class_test in Hc. apply Ascii.eqb_eq in Hc. now subst.
Qed.

Lemma append_empty_r (g : string) : (g ++ "")%string = g.
Proof.
  induction g as [| c g IH]; [reflexivity |].
  change (String c (g ++ "") = String c g). now rewrite IH.
Qed.

(** The expression accepts exactly the strings of the 8-4-4-4-12 shape. *)
Lemma UUID_RE_shape (s : string) : test UUID_RE s = true <-> uuid_shape s.
Proof.
  unfold test, UUID_RE, uuid_shape. cbn [atoms ignoreCase]. split.
  - cbn [match_atoms]. intros H.
    repeat match type of H with
    | context [match_rep ?i ?cl ?n ?x] =>
        let r := fresh "r" in let E := fresh "E" in
        destruct (match_rep i cl n x) as [r |] eqn:E; [| discriminate];
        apply match_rep_sound in E
    end.
    destruct r7 as [| ? ?]; [| discriminate].
    destruct E as (g1 & -> & L1 & F1). destruct E0 as (d1 & -> & Ld1 & Fd1).
    destruct E1 as (g2 & -> & L2 & F2). destruct E2 as (d2 & -> & Ld2 & Fd2).
    destruct E3 as (g3 & -> & L3 & F3). destruct E4 as (d3 & -> & Ld3 & Fd3).
    destruct E5 as (g4 & -> & L4 & F4). destruct E6 as (d4 & -> & Ld4 & Fd4).
    destruct E7 as (g5 & -> & L5 & F5).
    rewrite (dash_group d1), (dash_group d2), (dash_group d3), (dash_group d4)
      by assumption.
    rewrite append_empty_r.
    exists g1, g2, g3, g4, g5. split; [reflexivity |].
    rewrite !hex_group_class. auto 10.
  - intros (g1 & g2 & g3 & g4 & g5 & -> & H1 & H2 & H3 & H4 & H5).
    apply hex_group_class in H1, H2, H3, H4, H5.
    destruct H1 as [L1 F1], H2 as [L2 F2], H3 as [L3 F3], H4 as [L4 F4],
      H5 as [L5 F5].
    assert (Fd : Forall (fun c => class_test true dash_class c = true)
                   (list_ascii_of_string "-")) by (repeat constructor).
    rewrite (match_atoms_group true hex_class 8 g1) by assumption.
    rewrite (match_atoms_group true dash_class 1 "-") by (assumption || reflexivity).
    rewrite (match_atoms_group true hex_class 4 g2) by assumption.
    rewrite (match_atoms_group true dash_class 1 "-") by (assumption || reflexivity).
    rewrite (match_atoms_group true hex_class 4 g3) by assumption.
    rewrite (match_atoms_group true dash_class 1 "-") by (assumption || reflexivity).
    rewrite (match_atoms_group true hex_class 4 g4) by assumption.
    rewrite (match_atoms_group true dash_class 1 "-") by (assumption || reflexivity).
    rewrite <- (append_empty_r g5).
    rewrite (match_atoms_group true hex_class 12 g5) by assumption.
    reflexivity.
Qed.

End UuidShape.

(** ** Request validation *)

Section Validation.

Lemma nonEmptyString_Some (v : option JSValue) (s : string) :
  nonEmptyString v = Some s -> v = Some (JString s) /\ s <> "".
Proof.
  destruct v as [[| | | [| c t] | |] |]; simpl; try discriminate.
  intros [= <-]. split; [reflexivity | discriminate].
Qed.

Lemma integerNumber_Some (v : option JSValue) (n : number) :
  integerNumber v = Some n -> v = Some (JNumber n) /\ isInteger n = true.
Proof.
  destruct v as [[| | x | | |] |]; simpl; try discriminate.
  destruct (isInteger x) eqn:Hx; [| discriminate].
  intros [= <-]. auto.
Qed.

Lemma validateItem_inr (it : JSValue) (ci : CheckoutItem) :
  validateItem it = inr ci ->
  exists i,
    it = JObject i
    /\ nonEmptyString (get_prop "productId" i) = Some (ci_productId ci)
    /\ nonEmptyString (get_prop "name" i) = Some (ci_name ci)
    /\ integerNumber (get_prop "unitPrice" i) = Some (ci_unitPrice ci)
    /\ leb (ci_unitPrice ci) (of_Z 0) = false
    /\ integerNumber (get_prop "quantity" i) = Some (ci_quantity ci)
    /\ ltb (ci_quantity ci) (of_Z 1) = false.
Proof.
  destruct it as [| | | | | i]; try discriminate. unfold validateItem.
  destruct (nonEmptyString (get_prop "productId" i)) as [pid |] eqn:Hpid;
    [| discriminate].
  destruct (nonEmptyString (get_prop "name" i)) as [nm |] eqn:Hnm; [| discriminate].
  destruct (integerNumber (get_prop "unitPrice" i)) as [u |] eqn:Hiu;
    [| discriminate].
  destruct (leb u (of_Z 0)) eqn:Hu; [discriminate |].
  destruct (integerNumber (get_prop "quantity" i)) as [q |] eqn:Hiq;
    [| discriminate].
  destruct (ltb q (of_Z 1)) eqn:Hq; [discriminate |].
  intros [= <-]. exists i. cbn [ci_productId ci_name ci_unitPrice ci_quantity].
  repeat split; assumption.
Qed.

Lemma validateItems_inr (l : list JSValue) (cis : list CheckoutItem) :
  validateItems l = inr cis ->
  Forall2 (fun it ci => validateItem it = inr ci) l cis.
Proof.
  revert cis. induction l as [| it rest IH]; intros cis; simpl.
  - intros [= <-]. constructor.
  - destruct (validateItem it) as [m | ci] eqn:Hit; [discriminate |].
    destruct (validateItems rest) as [m | cis'] eqn:Hrest; [discriminate |].
    intros [= <-]. constructor; [assumption | now apply IH].
Qed.

Lemma validateRequest_Valid (body : JSValue) (req : CheckoutRequest) :
  validateRequest body = Valid req ->
  exists raw first more,
    body = JObject raw
    /\ nonEmptyString (get_prop "cartId" raw) = Some (req_cartId req)
    /\ Regex.test UUID_RE (req_cartId req) = true
    /\ nonEmptyString (get_prop "customerId" raw) = Some (req_customerId req)
    /\ get_prop "items" raw = Some (JArray (first :: more))
    /\ validateItems (first :: more) = inr (req_items req).
Proof.
  destruct body as [| | | | | raw]; try discriminate. unfold validateRequest.
  destruct (nonEmptyString (get_prop "cartId" raw)) as [cart |] eqn:Hcart;
    [| discriminate].
  destruct (Regex.test UUID_RE cart) eqn:Hre; [| discriminate]. simpl negb. cbv iota.
  destruct (nonEmptyString (get_prop "customerId" raw)) as [cust |] eqn:Hcust;
    [| discriminate].
  destruct (get_prop "items" raw) as [[| | | | [| first more] |] |] eqn:Hitems;
    try discriminate.
  destruct (validateItems (first :: more)) as [m | its] eqn:Hits; [discriminate |].
  intros [= <-]. exists raw, first, more.
  cbn [req_cartId req_customerId req_items]. repeat split; assumption.
Qed.

(** Every defect named by the rules makes validation fail. *)
Lemma defect_rejected (body : JSValue) :
  defect body -> exists message, validateRequest body = Invalid message.
Proof.
  intros Hd. destruct (validateRequest body) as [req | m] eqn:Hv; [| eauto].
  exfalso.
  destruct (validateRequest_Valid _ _ Hv)
    as (raw & first & more & -> & Hcart & _ & Hcust & Hitems & Hval).
  apply nonEmptyString_Some in Hcart, Hcust.
  destruct Hcart as [Hcart _], Hcust as [Hcust _].
  assert (Hin : forall it, In it (first :: more) ->
                exists ci, validateItem it = inr ci).
  { apply validateItems_inr in Hval. clear -Hval.
    induction Hval as [| it ci l cis Hit _ IH]; intros x [].
    - subst. eauto.
    - now apply IH. }
  destruct Hd as [H | H | H | it n Hit Hp Hle | it n Hit Hp Hlt];
    cbn [prop_of array_items] in *.
  - congruence.
  - congruence.
  - congruence.
  - rewrite Hitems in Hit. destruct (Hin it Hit) as (ci & Hci).
    apply validateItem_inr in Hci.
    destruct Hci as (i & -> & _ & _ & Hu & Hpos & _). cbn [prop_of] in Hp.
    apply integerNumber_Some in Hu. destruct Hu as [Hu _].
    rewrite Hp in Hu. injection Hu as Hu. rewrite <- Hu in Hpos. congruence.
  - rewrite Hitems in Hit. destruct (Hin it Hit) as (ci & Hci).
    apply validateItem_inr in Hci.
    destruct Hci as (i & -> & _ & _ & _ & _ & Hq & Hge). cbn [prop_of] in Hp.
    apply integerNumber_Some in Hq. destruct Hq as [Hq _].
    rewrite Hp in Hq. injection Hq as Hq. rewrite <- Hq in Hge. congruence.
Qed.

End Validation.

(** ** Validation messages and the cart identifier *)

Section Messages.

Lemma validateItem_inl (it : JSValue) (m : string) :
  validateItem it = inl m -> In m item_messages.
Proof.
  unfold validateItem.
  repeat match goal with
  | |- context [match ?x with _ => _ end] => destruct x
  end; intros [= <-]; cbn; tauto.
Qed.

Lemma validateItems_inl (l : list JSValue) (m : string) :
  validateItems l = inl m -> In m item_messages.
Proof.
  induction l as [| it rest IH]; simpl; [discriminate |].
  destruct (validateItem it) as [m' | ci] eqn:Hit.
  - intros [= <-]. eapply validateItem_inl; eassumption.
  - destruct (validateItems rest) as [m' | cis]; [| discriminate].
    intros [= <-]. now apply IH.
Qed.

Lemma validateRequest_Invalid (body : JSValue) (m : string) :
  validateRequest body = Invalid m -> In m validation_messages.
Proof.
  unfold validateRequest.
  destruct body as [| | | | | raw]; try (intros [= <-]; cbn; tauto).
  destruct (nonEmptyString (get_prop "cartId" raw)) as [cart |];
    [| intros [= <-]; cbn; tauto].
  destruct (negb (Regex.test UUID_RE cart)); [intros [= <-]; cbn; tauto |].
  destruct (nonEmptyString (get_prop "customerId" raw)) as [cust |];
    [| intros [= <-]; cbn; tauto].
  destruct (get_prop "items" raw) as [[| | | | [| first more] |] |];
    try (intros [= <-]; cbn; tauto).
  destruct (validateItems (first :: more)) as [m' | its] eqn:Hits; [| discriminate].
  intros [= <-]. apply validateItems_inl in Hits.
  unfold validation_messages. apply in_or_app. now right.
Qed.

(** Once the cart identifier has passed, no later failure is about it. *)
Lemma cartId_passes (raw : list (string * JSValue)) (c : string) :
  get_prop "cartId" raw = Some (JString c) ->
  Regex.test UUID_RE c = true ->
  validateRequest (JObject raw) <> Invalid "Missing or invalid cartId"
  /\ validateRequest (JObject raw) <> Invalid "cartId must be a valid UUID".
Proof.
  intros Hc Hre. unfold validateRequest. rewrite Hc.
  destruct c as [| a c']; [discriminate |]. cbn [nonEmptyString].
  rewrite Hre. cbn [negb].
  destruct (nonEmptyString (get_prop "customerId" raw)) as [cust |];
    [| split; discriminate].
  destruct (get_prop "items" raw) as [[| | | | [| first more] |] |];
    try (split; discriminate).
  destruct (validateItems (first :: more)) as [m' | its] eqn:Hits;
    [| split; discriminate].
  apply validateItems_inl in Hits.
  split; intros [= ->]; cbn in Hits; intuition discriminate.
Qed.

Lemma cartId_rejected (raw : list (string * JSValue)) (c : string) :
  get_prop "cartId" raw = Some (JString c) ->
  Regex.test UUID_RE c = false ->
  validateRequest (JObject raw) = Invalid "Missing or invalid cartId"
  \/ validateRequest (JObject raw) = Invalid "cartId must be a valid UUID".
Proof.
  intros Hc Hre. unfold validateRequest. rewrite Hc.
  destruct c as [| a c']; [now left |]. cbn [nonEmptyString].
  rewrite Hre. now right.
Qed.

Lemma cartId_valid (raw : list (string * JSValue)) (c customer : string)
      (first : JSValue) (more : list JSValue) (its : list CheckoutItem) :
  get_prop "cartId" raw = Some (JString c) ->
  Regex.test UUID_RE c = true ->
  nonEmptyString (get_prop "customerId" raw) = Some customer ->
  get_prop "items" raw = Some (JArray (first :: more)) ->
  validateItems (first :: more) = inr its ->
  validateRequest (JObject raw)
  = Valid {| req_cartId := c; req_customerId := customer; req_items := its |}.
Proof.
  intros Hc Hre Hcust Hitems Hval. unfold validateRequest. rewrite Hc.
  destruct c as [| a c']; [discriminate |]. cbn [nonEmptyString].
  rewrite Hre, Hcust, Hitems, Hval. reflexivity.
Qed.

End Messages.

(** ** The handler *)

Section HandlerFacts.

Context {W : Type} {P : Platform W}.
Variable JSON_parse : string -> option JSValue.

Lemma probe_hit (event : APIGatewayProxyEvent) (parsed : JSValue)
      (req : CheckoutRequest) (w w1 : W) (o : Order) :
  JSON_parse (body_text event) = Some parsed ->
  validateRequest parsed = Valid req ->
  send_GetCommand (req_cartId req) w = (inr (Some o), w1) ->
  handler JSON_parse event w
  = (Ok (ok o), w1,
     [EvLog {| level := info; action := "checkout.start";
               log_cartId := Some (req_cartId req); log_orderId := None;
               log_total := None; log_error := None |};
      EvGet (req_cartId req) (inr (Some o));
      EvLog {| level := info; action := "checkout.duplicate";
               log_cartId := Some (req_cartId req);
               log_orderId := Some (orderId o);
               log_total := None; log_error := None |}]).
Proof.
  intros Hp Hv Hg. run. rewrite Hp, Hv.
  cbv beta iota zeta. rewrite Hg. reflexivity.
Qed.

Lemma ordered_from_sound (t : list Event) :
  forall committed pre ev post,
    ordered_from committed t ->
    t = (pre ++ ev :: post)%list -> is_capture ev = true ->
    exists o, (In o committed \/ In (EvPut o (inr tt)) pre)
              /\ captures (orderId o) (total o) ev.
Proof.
  induction t as [| x t IH]; intros committed pre ev post Hord Heq Hcap.
  - destruct pre; discriminate.
  - destruct Hord as [Hx Hrest]. destruct pre as [| y pre]; simpl in Heq.
    + injection Heq as -> ->. destruct (Hx Hcap) as (o & Hin & Hc). eauto.
    + injection Heq as -> ->.
      destruct (IH _ _ _ _ Hrest eq_refl Hcap) as (o & [Hin | Hin] & Hc).
      * destruct y as [| it [| []] |]; simpl in Hin;
          try (exists o; split; [left; assumption | assumption]).
        destruct Hin as [-> | Hin]; exists o; (split; [| assumption]).
        -- right. left. reflexivity.
        -- left. assumption.
      * exists o. split; [right; right; assumption | assumption].
Qed.

Ltac discipline :=
  split;
  [ intros pre ev post Heq Hcap;
    match goal with
    | |- context [In _ pre] =>
        match type of Heq with
        | ?t = _ =>
            let H := fresh in
            assert (H : ordered_from [] t)
              by (cbn [ordered_from is_capture action]; repeat split;
                  try solve [intros Hf; discriminate Hf];
                  try solve [intros _; eexists; split;
                             [left; reflexivity | reflexivity]]);
            destruct (ordered_from_sound t [] pre ev post H Heq Hcap)
              as (o' & [[] | Hin] & Hc); eauto
        end
    end
  | split;
    [ cbn; lia
    | split;
      [ intros (k & o' & Hin); cbn in Hin |- *; try reflexivity;
        exfalso; intuition discriminate
      | intros (o' & err & Hin); cbn in Hin |- *; try reflexivity;
        exfalso; intuition discriminate ] ] ].

Lemma capture_discipline_handler (event : APIGatewayProxyEvent) (w : W) :
  capture_discipline (snd (handler JSON_parse event w)).
Proof.
  run.
  destruct (JSON_parse _) as [parsed |]; [| cbn [snd]; discipline].
  destruct (validateRequest parsed) as [req | m]; [| cbn [snd]; discipline].
  cbv beta iota zeta.
  generalize (calculatePricing (req_items req)). intros pricing.
  destruct (send_GetCommand (req_cartId req) w) as [[e | [found |]] w1];
    [cbn [snd app]; discipline | cbn [snd app]; discipline |].
  destruct (randomUUID w1) as [oid w2]. destruct (Date_toISOString w2) as [stamp w3].
  cbv beta iota zeta.
  match goal with |- context [send_PutCommand ?x w3] => set (o := x) end.
  destruct (send_PutCommand o w3) as [[[m | n m] | []] w4];
    cbv beta iota zeta.
  - destruct (send_GetCommand (cartId o) w4) as [[e | [found |]] w5];
      cbn [snd app negb created order]; discipline.
  - cbn [snd app]; discipline.
  - cbn [snd app negb created order orderId total]; discipline.
Qed.

(** After validation the response is the order, or the fixed 500 body. *)
Lemma post_validation (event : APIGatewayProxyEvent) (parsed : JSValue)
      (req : CheckoutRequest) (w : W) :
  JSON_parse (body_text event) = Some parsed ->
  validateRequest parsed = Valid req ->
  exists resp w' t,
    handler JSON_parse event w = (Ok resp, w', t)
    /\ ((exists o, resp = ok o) \/ resp = internalError).
Proof.
  intros Hp Hv. run. rewrite Hp, Hv.
  cbv beta iota zeta.
  generalize (calculatePricing (req_items req)). intros pricing.
  destruct (send_GetCommand (req_cartId req) w) as [[e | [found |]] w1];
    [cbn; eauto 8 | cbn; eauto 8 |].
  destruct (randomUUID w1) as [oid w2]. destruct (Date_toISOString w2) as [stamp w3].
  cbv beta iota zeta.
  match goal with |- context [send_PutCommand ?x w3] => set (o := x) end.
  destruct (send_PutCommand o w3) as [[[m | n m] | []] w4];
    cbv beta iota zeta.
  - destruct (send_GetCommand (cartId o) w4) as [[e | [found |]] w5];
      cbn; eauto 8.
  - cbn; eauto 8.
  - cbn; eauto 8.
Qed.

Lemma createOrder_vanished (o : Order) (m : string) (w w1 w2 : W) :
  send_PutCommand o w = (inl (ConditionalCheckFailedException m), w1) ->
  send_GetCommand (cartId o) w1 = (inr None, w2) ->
  createOrder o w
  = (Throw (Error ("Idempotency check failed: order for cartId "
                   ++ cartId o ++ " not found after conflict")),
     w2,
     [EvPut o (inl (ConditionalCheckFailedException m));
      EvGet (cartId o) (inr None)]).
Proof.
  intros Hput Hget. run. rewrite Hput. cbv beta iota zeta. rewrite Hget.
  reflexivity.
Qed.

Lemma handler_vanished (event : APIGatewayProxyEvent) (parsed : JSValue)
      (req : CheckoutRequest) (m oid stamp : string) (w w1 w2 w3 w4 w5 : W) :
  JSON_parse (body_text event) = Some parsed ->
  validateRequest parsed = Valid req ->
  send_GetCommand (req_cartId req) w = (inr None, w1) ->
  randomUUID w1 = (oid, w2) ->
  Date_toISOString w2 = (stamp, w3) ->
  (forall o, cartId o = req_cartId req ->
             send_PutCommand o w3 = (inl (ConditionalCheckFailedException m), w4)) ->
  send_GetCommand (req_cartId req) w4 = (inr None, w5) ->
  exists t,
    handler JSON_parse event w = (Ok internalError, w5, t)
    /\ List.filter is_capture t = []
    /\ List.length (List.filter is_put t) = 1%nat.
Proof.
  intros Hp Hv Hg1 Hu Hd Hput Hg2. run. rewrite Hp, Hv.
  cbv beta iota zeta. rewrite Hg1, Hu, Hd. cbv beta iota zeta.
  rewrite Hput by reflexivity. cbv beta iota zeta. cbn [cartId]. rewrite Hg2.
  eexists. split; [reflexivity |]. split; reflexivity.
Qed.

Lemma validation_failure (event : APIGatewayProxyEvent) (parsed : JSValue)
      (message : string) (w : W) :
  JSON_parse (body_text event) = Some parsed ->
  validateRequest parsed = Invalid message ->
  handler JSON_parse event w = (Ok (validationError message), w, []).
Proof.
  intros Hp Hv. run. now rewrite Hp, Hv.
Qed.

Lemma parse_failure (event : APIGatewayProxyEvent) (w : W) :
  JSON_parse (body_text event) = None ->
  handler JSON_parse event w = (Ok (validationError "Invalid JSON body"), w, []).
Proof.
  intros Hp. run. now rewrite Hp.
Qed.

End HandlerFacts.

Section InMemory.

Variable JSON_parse : string -> option JSValue.

(** A first checkout against the in-memory table leaves an order on record
    and answers with it. *)
Lemma mem_checkout (event : APIGatewayProxyEvent) (parsed : JSValue)
      (req : CheckoutRequest) (w : MemWorld) :
  JSON_parse (body_text event) = Some parsed ->
  validateRequest parsed = Valid req ->
  exists o w' t,
    handler JSON_parse event w = (Ok (ok o), w', t)
    /\ table w' !! req_cartId req = Some o
    /\ (List.length (List.filter is_put t) <= 1)%nat
    /\ (forall o0, table w !! req_cartId req = Some o0 ->
        o = o0 /\ w' = w /\ List.filter is_put t = []
        /\ List.filter is_capture t = []).
Proof.
  intros Hp Hv. run. rewrite Hp, Hv.
  cbv beta iota zeta. cbn [send_GetCommand mem_platform].
  destruct (table w !! req_cartId req) as [o0 |] eqn:Hlook.
  - exists o0, w. eexists. split; [reflexivity |]. split; [assumption |].
    split; [cbn; lia |]. intros ? [= <-]. repeat split; reflexivity.
  - cbn [randomUUID Date_toISOString send_PutCommand mem_platform].
    cbv beta iota zeta. unfold mem_put. cbn [cartId table mem_next].
    rewrite Hlook. cbv beta iota zeta. cbn [negb created].
    eexists. eexists. eexists. split; [reflexivity |].
    split; [cbn [table]; apply lookup_insert_eq |].
    split; [cbn; lia |]. intros ? [=].
Qed.

End InMemory.

(** ** Validated items, and the acceptance scenario *)

Section Accepted.

Lemma compare_finite_antisym (m1 m2 : positive) (e1 e2 : Z) :
  SFcompare (S754_finite false m2 e2) (S754_finite false m1 e1)
  = option_map CompOpp (SFcompare (S754_finite false m1 e1) (S754_finite false m2 e2)).
Proof.
  simpl. rewrite (Z.compare_antisym e1 e2).
  destruct (e1 ?= e2) eqn:He; simpl; try reflexivity.
  rewrite (Pos.compare_cont_antisym m1 m2 Eq). reflexivity.
Qed.

Lemma not_ltb_one_leb (q : number) :
  isInteger q = true -> ltb q (of_Z 1) = false -> leb (of_Z 1) q = true.
Proof.
  intros Hint Hlt. destruct q as [s | s | | s m e]; try discriminate.
  destruct s; [discriminate |].
  change (of_Z 1) with (S754_finite false 4503599627370496 (-52)) in *.
  unfold ltb, SFltb in Hlt. unfold leb, SFleb.
  rewrite compare_finite_antisym.
  destruct (SFcompare (S754_finite false m e) _) as [[| |] |] eqn:Hc;
    try discriminate; reflexivity.
Qed.

Lemma not_leb_zero_ltb (u : number) :
  isInteger u = true -> leb u (of_Z 0) = false -> ltb (of_Z 0) u = true.
Proof.
  intros Hint Hle. destruct u as [s | s | | s m e]; try discriminate.
  destruct s; [discriminate | reflexivity].
Qed.

(** What validation lets through is a valid item, as soon as its two
    numbers are well-formed doubles. *)
Lemma validated_item_valid (it : JSValue) (ci : CheckoutItem) :
  validateItem it = inr ci ->
  wf (ci_unitPrice ci) = true -> wf (ci_quantity ci) = true ->
  valid_item ci = true.
Proof.
  intros Hv Hwu Hwq. apply validateItem_inr in Hv.
  destruct Hv as (i & _ & _ & _ & Hu & Hpos & Hq & Hge).
  apply integerNumber_Some in Hu, Hq.
  destruct Hu as [_ Hiu], Hq as [_ Hiq].
  unfold valid_item. rewrite Hwu, Hiu, Hwq, Hiq.
  rewrite (not_leb_zero_ltb _ Hiu Hpos), (not_ltb_one_leb _ Hiq Hge). reflexivity.
Qed.

End Accepted.

(** The acceptance scenario on the in-memory table: 200 with the new order,
    the order is on record, and the put comes before the capture. *)
Example first_checkout_in_memory :
  handler parse_fixture (event_of "valid") mem_empty
  = (Ok (ok stored_order),
     {| table := {[ CART_ID := stored_order ]};
        uuid_at := uuid_at mem_empty; time_at := time_at mem_empty; tick := 2 |},
     [EvLog {| level := info; action := "checkout.start";
               log_cartId := Some CART_ID; log_orderId := None;
               log_total := None; log_error := None |};
      EvGet CART_ID (inr None);
      EvPut stored_order (inr tt);
      EvLog {| level := info; action := "payment.capture"; log_cartId := None;
               log_orderId := Some (orderId stored_order);
               log_total := Some (of_Z 5940); log_error := None |};
      EvLog {| level := info; action := "checkout.complete";
               log_cartId := Some CART_ID;
               log_orderId := Some (orderId stored_order);
               log_total := None; log_error := None |}]).
Proof. vm_compute. reflexivity. Qed.

(** ** Pricing: the claims *)

Lemma tax_exact (its : list CheckoutItem) :
  valid_items its ->
  exact_subtotal its < 2 ^ 52 ->
  pr_tax (calculatePricing its) = of_Z (exact_tax (exact_subtotal its)).
Proof.
  intros Hv Hlt. pose proof (exact_subtotal_positive its Hv) as Hpos.
  destruct Hv as [_ Hall].
  change (pr_tax (calculatePricing its))
    with (Math_floor (mul (pr_subtotal (calculatePricing its)) lit_0_08)).
  rewrite subtotal_exact by (assumption || lia).
  apply tax_floor. lia.
Qed.

(** C3. The tax is documented as [floor(subtotal * 0.08)] on integer cents
    ([src/types.ts], SPEC.md), and the code computes it as [Math.floor] of the
    binary64 product.  A request with one line of 5254199565265587 cents
    passes validation; subtotal, tax and total are all safe integers; the
    exact floor of 8 percent is 420335965221246, and the code returns
    420335965221247: the product is rounded up to the next integer before
    the floor is taken. *)
Theorem tax_off_by_one_at_5254199565265587 :
  validateRequest (js_request [js_item "prod-1" "Bond" 5254199565265587 1])
  = Valid (request_of cart_5254199565265587)
  /\ valid_items cart_5254199565265587
  /\ exact_subtotal cart_5254199565265587 = 5254199565265587
  /\ to_Z (pr_subtotal (calculatePricing cart_5254199565265587)) = 5254199565265587
  /\ exact_tax (exact_subtotal cart_5254199565265587) = 420335965221246
  /\ pr_tax (calculatePricing cart_5254199565265587) = of_Z 420335965221247
  /\ to_Z (pr_tax (calculatePricing cart_5254199565265587)) = 420335965221247
  /\ to_Z (pr_total (calculatePricing cart_5254199565265587)) = 5674535530486834
  /\ 5674535530486834 < 2 ^ 53
  /\ to_Z (pr_tax (calculatePricing cart_5254199565265587))
     <> exact_tax (exact_subtotal cart_5254199565265587).
Proof.
  split; [vm_compute; reflexivity |].
  split; [split; [discriminate | reflexivity] |].
  repeat (split; [vm_compute; reflexivity |]).
  vm_compute. discriminate.
Qed.

Lemma lineTotals_nonneg (its : list CheckoutItem) :
  forallb valid_item its = true -> exact_subtotal its < 2 ^ 53 ->
  Forall (fun oi => nonneg_integer (lineTotal oi) = true)
         (List.map exact_priceItem its).
Proof.
  induction its as [| it rest IH]; simpl; [constructor |].
  rewrite andb_true_iff. intros [Hit Hrest] Hlt.
  destruct (valid_item_values it Hit) as (Hu & Hq & _).
  pose proof (exact_subtotal_nonneg rest Hrest).
  constructor; [| apply IH; [assumption | lia]].
  cbn [lineTotal exact_priceItem]. apply nonneg_integer_of_Z. nia.
Qed.

Lemma lineTotals_value (its : list CheckoutItem) :
  forallb valid_item its = true -> exact_subtotal its < 2 ^ 53 ->
  List.map (fun oi => to_Z (lineTotal oi)) (List.map exact_priceItem its)
  = List.map (fun it => to_Z (ci_unitPrice it) * to_Z (ci_quantity it)) its.
Proof.
  induction its as [| it rest IH]; simpl; [reflexivity |].
  rewrite andb_true_iff. intros [Hit Hrest] Hlt.
  destruct (valid_item_values it Hit) as (Hu & Hq & _).
  pose proof (exact_subtotal_nonneg rest Hrest).
  rewrite IH by (assumption || lia). rewrite to_Z_of_Z by nia. reflexivity.
Qed.

(** The tax of a valid cart below [2^53] cents is an integer, the exact
    floor of 8 percent or one more. *)
Lemma tax_value (its : list CheckoutItem) :
  valid_items its -> exact_subtotal its < 2 ^ 53 ->
  exists t, pr_tax (calculatePricing its) = of_Z t
            /\ exact_tax (exact_subtotal its) <= t <= exact_tax (exact_subtotal its) + 1
            /\ 0 <= t < 2 ^ 53.
Proof.
  intros Hv Hlt. pose proof (exact_subtotal_positive its Hv) as Hpos.
  destruct Hv as [_ Hall].
  change (pr_tax (calculatePricing its))
    with (Math_floor (mul (pr_subtotal (calculatePricing its)) lit_0_08)).
  rewrite subtotal_exact by assumption.
  destruct (tax_near_floor (exact_subtotal its) ltac:(lia)) as (t & Ht & Hb).
  exists t. split; [exact Ht |]. split; [exact Hb |].
  pose proof (exact_tax_bounds (exact_subtotal its) ltac:(lia)) as Hg.
  pose proof (Z.mul_div_le (exact_subtotal its * 8) 100 ltac:(lia)) as Hd.
  unfold exact_tax in *. lia.
Qed.

(** C4 (as amended). For every valid item list whose subtotal is below 2^53
    cents: the priced items are the request's items in their order, each with
    lineTotal = unitPrice * quantity; subtotal is the sum of the line totals;
    lineTotal, subtotal and tax are non-negative integers; and when subtotal
    plus tax is below 2^53 as well, total = subtotal + tax, a non-negative
    integer.  The condition on the sum is needed: see
    [total_rounded_past_2_53]. *)
Theorem pricing_exact_in_safe_range (its : list CheckoutItem) :
  valid_items its ->
  exact_subtotal its < 2 ^ 53 ->
  let r := calculatePricing its in
  pr_items r = List.map exact_priceItem its
  /\ List.map (fun oi => to_Z (lineTotal oi)) (pr_items r)
     = List.map (fun it => to_Z (ci_unitPrice it) * to_Z (ci_quantity it)) its
  /\ pr_subtotal r = of_Z (exact_subtotal its)
  /\ to_Z (pr_subtotal r) = exact_subtotal its
  /\ Forall (fun oi => nonneg_integer (lineTotal oi) = true) (pr_items r)
  /\ nonneg_integer (pr_subtotal r) = true
  /\ nonneg_integer (pr_tax r) = true
  /\ (to_Z (pr_subtotal r) + to_Z (pr_tax r) < 2 ^ 53 ->
      to_Z (pr_total r) = to_Z (pr_subtotal r) + to_Z (pr_tax r)
      /\ nonneg_integer (pr_total r) = true).
Proof.
  intros Hv Hlt r.
  pose proof (exact_subtotal_positive its Hv) as Hpos.
  destruct (tax_value its Hv Hlt) as (t & Htax & _ & Ht).
  destruct Hv as [_ Hall].
  assert (Hitems : pr_items r = List.map exact_priceItem its)
    by (apply map_priceItem_exact; assumption).
  assert (Hsub : pr_subtotal r = of_Z (exact_subtotal its))
    by (apply subtotal_exact; assumption).
  fold r in Htax.
  split; [exact Hitems |].
  split; [rewrite Hitems; apply lineTotals_value; assumption |].
  split; [exact Hsub |].
  split; [rewrite Hsub; apply to_Z_of_Z; lia |].
  split; [rewrite Hitems; apply lineTotals_nonneg; assumption |].
  split; [rewrite Hsub; apply nonneg_integer_of_Z; lia |].
  split; [rewrite Htax; apply nonneg_integer_of_Z; lia |].
  change (pr_total r) with (add (pr_subtotal r) (pr_tax r)).
  rewrite Hsub, Htax, !to_Z_of_Z by lia. intros Hsum.
  rewrite add_of_Z by lia.
  split; [apply to_Z_of_Z; lia | apply nonneg_integer_of_Z; lia].
Qed.

(** The amended C4 at the cart of the acceptance tests: subtotal 5500 and,
    as 5500 + 440 is below 2^53, total 5940. *)
Lemma test_cart_pricing_example :
  valid_items test_cart /\ exact_subtotal test_cart < 2 ^ 53
  /\ pr_items (calculatePricing test_cart) = List.map exact_priceItem test_cart
  /\ pr_subtotal (calculatePricing test_cart) = of_Z 5500
  /\ to_Z (pr_subtotal (calculatePricing test_cart))
     + to_Z (pr_tax (calculatePricing test_cart)) < 2 ^ 53
  /\ to_Z (pr_total (calculatePricing test_cart))
     = to_Z (pr_subtotal (calculatePricing test_cart))
       + to_Z (pr_tax (calculatePricing test_cart)).
Proof.
  assert (Hv : valid_items test_cart) by (split; [discriminate | reflexivity]).
  assert (Hlt : exact_subtotal test_cart < 2 ^ 53) by reflexivity.
  assert (Hsum : to_Z (pr_subtotal (calculatePricing test_cart))
                 + to_Z (pr_tax (calculatePricing test_cart)) < 2 ^ 53)
    by reflexivity.
  split; [exact Hv |]. split; [exact Hlt |].
  pose proof (pricing_exact_in_safe_range test_cart Hv Hlt) as H. cbv zeta in H.
  destruct H as (H1 & _ & H3 & _ & _ & _ & _ & H8).
  split; [exact H1 |]. split; [exact H3 |]. split; [exact Hsum |].
  exact (proj1 (H8 Hsum)).
Defined.

(** C4 fails as stated: three units at 9007199254740991 cents are valid
    input, and the line total is the rounded product 27021597764222972, not
    27021597764222973. *)
Lemma line_total_rounded_at_max_safe_integer :
  valid_items cart_max_safe
  /\ List.map (fun oi => to_Z (lineTotal oi)) (pr_items (calculatePricing cart_max_safe))
     = [27021597764222972]
  /\ List.map (fun it => to_Z (ci_unitPrice it) * to_Z (ci_quantity it)) cart_max_safe
     = [27021597764222973]
  /\ List.map (fun oi => to_Z (lineTotal oi)) (pr_items (calculatePricing cart_max_safe))
     <> List.map (fun it => to_Z (ci_unitPrice it) * to_Z (ci_quantity it)) cart_max_safe.
Proof.
  split; [split; [discriminate | reflexivity] |].
  split; [reflexivity |]. split; [reflexivity |].
  vm_compute. discriminate.
Qed.

(** A subtotal below 2^53 does not keep the total exact: one line of
    9007199254740990 cents has tax 720575940379279, the sum 9727775195120269
    is past 2^53 and odd, and the total returned is 9727775195120268. *)
Lemma total_rounded_past_2_53 :
  valid_items cart_9007199254740990
  /\ exact_subtotal cart_9007199254740990 < 2 ^ 53
  /\ to_Z (pr_subtotal (calculatePricing cart_9007199254740990)) = 9007199254740990
  /\ to_Z (pr_tax (calculatePricing cart_9007199254740990)) = 720575940379279
  /\ to_Z (pr_total (calculatePricing cart_9007199254740990)) = 9727775195120268
  /\ to_Z (pr_total (calculatePricing cart_9007199254740990))
     <> to_Z (pr_subtotal (calculatePricing cart_9007199254740990))
        + to_Z (pr_tax (calculatePricing cart_9007199254740990)).
Proof.
  split; [split; [discriminate | reflexivity] |].
  repeat (split; [vm_compute; reflexivity |]).
  vm_compute. discriminate.
Qed.

(** C7. For items [{unitPrice: 2000, quantity: 2}, {unitPrice: 1500,
    quantity: 1}], whatever their product ids and names, calculatePricing
    returns subtotal 5500, tax 440 and total 5940. *)
Theorem pricing_scenario_5500_440_5940 (pid1 nm1 pid2 nm2 : string) :
  let r := calculatePricing [cart_item pid1 nm1 2000 2; cart_item pid2 nm2 1500 1] in
  pr_subtotal r = of_Z 5500 /\ pr_tax r = of_Z 440 /\ pr_total r = of_Z 5940
  /\ to_Z (pr_subtotal r) = 5500 /\ to_Z (pr_tax r) = 440 /\ to_Z (pr_total r) = 5940.
Proof.
  cbv zeta. repeat split; vm_compute; reflexivity.
Qed.

(** C8. calculatePricing is total and, on the empty list, returns no items
    and subtotal, tax and total all 0. *)
Theorem pricing_of_empty_cart :
  calculatePricing []
  = {| pr_items := []; pr_subtotal := of_Z 0; pr_tax := of_Z 0; pr_total := of_Z 0 |}
  /\ to_Z (pr_subtotal (calculatePricing [])) = 0
  /\ to_Z (pr_tax (calculatePricing [])) = 0
  /\ to_Z (pr_total (calculatePricing [])) = 0.
Proof.
  repeat split; reflexivity.
Qed.

(** ** The handler: the claims *)

(** C1 (as amended). When the store already holds an order for the cartId of
    a request that parses and passes validation, the handler answers 200
    with that order as the body, unchanged and whatever the request's items;
    its only store call is the read that found the order: no put, no
    capture.  Hence, against the in-memory table, two such checkouts with
    the same cartId both answer 200 with the same order, the second leaves
    the table as it was, and at most one put is made. *)
Theorem idempotent_on_existing_order :
  (forall (W : Type) (P : Platform W) (JSON_parse : string -> option JSValue)
          (event : APIGatewayProxyEvent) (parsed : JSValue) (req : CheckoutRequest)
          (w w1 : W) (o : Order),
      JSON_parse (body_text event) = Some parsed ->
      validateRequest parsed = Valid req ->
      send_GetCommand (req_cartId req) w = (inr (Some o), w1) ->
      exists resp t,
        handler JSON_parse event w = (Ok resp, w1, t)
        /\ statusCode resp = 200
        /\ headers resp = [("Content-Type", "application/json")]
        /\ body resp = BodyOrder o
        /\ List.filter is_store_call t = [EvGet (req_cartId req) (inr (Some o))]
        /\ List.filter is_put t = [] /\ List.filter is_capture t = [])
  /\
  (forall (JSON_parse : string -> option JSValue)
          (e1 e2 : APIGatewayProxyEvent) (p1 p2 : JSValue) (r1 r2 : CheckoutRequest)
          (w : MemWorld),
      JSON_parse (body_text e1) = Some p1 -> validateRequest p1 = Valid r1 ->
      JSON_parse (body_text e2) = Some p2 -> validateRequest p2 = Valid r2 ->
      req_cartId r1 = req_cartId r2 ->
      exists o w1 resp1 resp2 t1 t2,
        handler JSON_parse e1 w = (Ok resp1, w1, t1)
        /\ handler JSON_parse e2 w1 = (Ok resp2, w1, t2)
        /\ statusCode resp1 = 200 /\ body resp1 = BodyOrder o
        /\ statusCode resp2 = 200 /\ body resp2 = BodyOrder o
        /\ table w1 !! req_cartId r1 = Some o
        /\ (List.length (List.filter is_put (t1 ++ t2)) <= 1)%nat
        /\ List.filter is_capture t2 = []).
Proof.
  split.
  - intros W P JSON_parse event parsed req w w1 o Hp Hv Hg.
    rewrite (probe_hit JSON_parse event parsed req w w1 o Hp Hv Hg).
    exists (ok o). eexists. split; [reflexivity |]. repeat split; reflexivity.
  - intros JSON_parse e1 e2 p1 p2 r1 r2 w Hp1 Hv1 Hp2 Hv2 Hsame.
    destruct (mem_checkout JSON_parse e1 p1 r1 w Hp1 Hv1)
      as (o & w1 & t1 & H1 & Hlook & Hput1 & _).
    destruct (mem_checkout JSON_parse e2 p2 r2 w1 Hp2 Hv2)
      as (o2 & w2 & t2 & H2 & _ & _ & Hsecond).
    rewrite <- Hsame in Hsecond.
    destruct (Hsecond o Hlook) as (-> & -> & Hput2 & Hcap2).
    exists o, w1, (ok o), (ok o), t1, t2.
    split; [exact H1 |]. split; [exact H2 |].
    do 4 (split; [reflexivity |]).
    split; [exact Hlook |]. split; [| exact Hcap2].
    rewrite List.filter_app, Hput2, List.app_nil_r. exact Hput1.
Qed.

(** The amended C1 at the in-memory table: an order on record and a request
    with other items; then two checkouts in a row from the empty table. *)
Lemma probe_hit_in_memory_example :
  (exists resp t,
      handler parse_fixture (event_of "other-items") mem_with_order
      = (Ok resp, mem_with_order, t)
      /\ statusCode resp = 200
      /\ body resp = BodyOrder stored_order
      /\ List.filter is_put t = [] /\ List.filter is_capture t = [])
  /\
  (exists o w1 resp1 resp2 t1 t2,
      handler parse_fixture (event_of "valid") mem_empty = (Ok resp1, w1, t1)
      /\ handler parse_fixture (event_of "other-items") w1 = (Ok resp2, w1, t2)
      /\ body resp1 = BodyOrder o /\ body resp2 = BodyOrder o
      /\ table w1 !! CART_ID = Some o).
Proof.
  split.
  - destruct (proj1 idempotent_on_existing_order MemWorld mem_platform
                parse_fixture (event_of "other-items") _
                (request_of [cart_item "prod-9" "Poster" 700 3])
                mem_with_order mem_with_order stored_order
                eq_refl eq_refl eq_refl)
      as (resp & t & H & Hs & _ & Hb & _ & Hput & Hcap).
    exists resp, t. repeat split; assumption.
  - destruct (proj2 idempotent_on_existing_order parse_fixture
                (event_of "valid") (event_of "other-items") _ _
                (request_of test_cart)
                (request_of [cart_item "prod-9" "Poster" 700 3]) mem_empty
                eq_refl eq_refl eq_refl eq_refl eq_refl)
      as (o & w1 & resp1 & resp2 & t1 & t2 & H1 & H2 & _ & Hb1 & _ & Hb2 & Hl & _).
    exists o, w1, resp1, resp2, t1, t2. repeat split; assumption.
Defined.

(** C1 fails as stated for a request that does not pass validation: with an
    order on record for its cartId, a request with an empty items array is
    answered 400 "Cart is empty", without a store call, not with the order. *)
Lemma stored_cart_with_empty_items_is_rejected :
  table mem_with_order !! CART_ID = Some stored_order
  /\ parse_fixture (body_text (event_of "empty-cart")) = Some (js_request [])
  /\ prop_of (js_request []) "cartId" = Some (JString CART_ID)
  /\ handler parse_fixture (event_of "empty-cart") mem_with_order
     = (Ok (validationError "Cart is empty"), mem_with_order, [])
  /\ ~ (exists resp w' t,
          handler parse_fixture (event_of "empty-cart") mem_with_order
          = (Ok resp, w', t)
          /\ statusCode resp = 200 /\ body resp = BodyOrder stored_order).
Proof.
  assert (H : handler parse_fixture (event_of "empty-cart") mem_with_order
              = (Ok (validationError "Cart is empty"), mem_with_order, []))
    by reflexivity.
  split; [reflexivity |]. split; [reflexivity |]. split; [reflexivity |].
  split; [exact H |].
  intros (resp & w' & t & Hh & Hs & _). rewrite H in Hh.
  injection Hh as <- _ _. discriminate Hs.
Qed.

(** C2. In every execution of the handler, on any platform: a payment capture
    is logged only after the store reported the successful creation of that
    very order (same orderId and total); at most one capture is made; and
    none is made when a read found an existing order (the idempotency probe,
    or the re-read after a refused put) or when the put failed. *)
Theorem capture_only_after_successful_create
        (W : Type) (P : Platform W) (JSON_parse : string -> option JSValue)
        (event : APIGatewayProxyEvent) (w : W) :
  capture_discipline (snd (handler JSON_parse event w)).
Proof.
  apply capture_discipline_handler.
Qed.

(** C5. A request whose parsed body has an empty items array, no cartId, no
    customerId, an item with unitPrice <= 0 or an item with quantity < 1 is
    answered 400 with error VALIDATION_ERROR and one of the validation
    messages; the world is untouched and the trace is empty: no store call,
    no capture. *)
Theorem defects_yield_validation_error
        (W : Type) (P : Platform W) (JSON_parse : string -> option JSValue)
        (event : APIGatewayProxyEvent) (parsed : JSValue) (w : W) :
  JSON_parse (body_text event) = Some parsed ->
  defect parsed ->
  exists resp message,
    handler JSON_parse event w = (Ok resp, w, [])
    /\ statusCode resp = 400
    /\ body resp = BodyError "VALIDATION_ERROR" message
    /\ In message validation_messages.
Proof.
  intros Hp Hd. destruct (defect_rejected parsed Hd) as (message & Hv).
  exists (validationError message), message.
  split; [now apply validation_failure with (parsed := parsed) |].
  split; [reflexivity |]. split; [reflexivity |].
  now apply validateRequest_Invalid with (body := parsed).
Qed.

(** C5 at a request with an empty items array. *)
Lemma empty_cart_example :
  exists resp message,
    handler parse_fixture (event_of "empty-cart") vanishing_store
    = (Ok resp, vanishing_store, [])
    /\ statusCode resp = 400
    /\ body resp = BodyError "VALIDATION_ERROR" message
    /\ In message validation_messages.
Proof.
  eapply (defects_yield_validation_error Script _ parse_fixture
            (event_of "empty-cart") _ vanishing_store).
  - reflexivity.
  - apply empty_items. reflexivity.
Defined.

(** C6. When the conditional put is refused and the re-read finds no record,
    createOrder throws an error after exactly that one put and one read, and
    the handler answers 500 with error INTERNAL_ERROR and the fixed message,
    without capture.  For a validated request, in any world, the answer is
    either an order or that same fixed 500 response. *)
Theorem vanished_record_is_internal_error
        (W : Type) (P : Platform W) (JSON_parse : string -> option JSValue)
        (event : APIGatewayProxyEvent) (parsed : JSValue) (req : CheckoutRequest)
        (m oid stamp : string) (w w1 w2 w3 w4 w5 : W) :
  JSON_parse (body_text event) = Some parsed ->
  validateRequest parsed = Valid req ->
  send_GetCommand (req_cartId req) w = (inr None, w1) ->
  randomUUID w1 = (oid, w2) ->
  Date_toISOString w2 = (stamp, w3) ->
  (forall o, cartId o = req_cartId req ->
             send_PutCommand o w3 = (inl (ConditionalCheckFailedException m), w4)) ->
  send_GetCommand (req_cartId req) w4 = (inr None, w5) ->
  (forall o, cartId o = req_cartId req ->
     createOrder o w3
     = (Throw (Error ("Idempotency check failed: order for cartId "
                      ++ cartId o ++ " not found after conflict")),
        w5,
        [EvPut o (inl (ConditionalCheckFailedException m));
         EvGet (cartId o) (inr None)]))
  /\ (exists t,
        handler JSON_parse event w = (Ok internalError, w5, t)
        /\ List.filter is_capture t = []
        /\ List.length (List.filter is_put t) = 1%nat)
  /\ statusCode internalError = 500
  /\ body internalError = BodyError "INTERNAL_ERROR" "An unexpected error occurred"
  /\ (forall w0, exists resp w' t,
        handler JSON_parse event w0 = (Ok resp, w', t)
        /\ ((exists o, resp = ok o) \/ resp = internalError)).
Proof.
  intros Hp Hv Hg1 Hu Hd Hput Hg2.
  split.
  { intros o Ho. apply (createOrder_vanished o m w3 w4 w5); [now apply Hput | now rewrite Ho]. }
  split.
  { now apply handler_vanished
      with (parsed := parsed) (req := req) (m := m) (oid := oid) (stamp := stamp)
           (w1 := w1) (w2 := w2) (w3 := w3) (w4 := w4). }
  split; [reflexivity |]. split; [reflexivity |].
  intros w0. now apply post_validation with (parsed := parsed) (req := req).
Qed.

(** C6 at a store that refuses the put and then finds nothing. *)
Lemma vanishing_store_example :
  exists t,
    handler parse_fixture (event_of "valid") vanishing_store
    = (Ok internalError, {| get_results := []; put_results := [] |}, t)
    /\ List.filter is_capture t = []
    /\ List.length (List.filter is_put t) = 1%nat.
Proof.
  refine (proj1 (proj2 (vanished_record_is_internal_error Script _ parse_fixture
            (event_of "valid") _ (request_of test_cart)
            "The conditional request failed"
            "7d3f8a52-1c9e-4b60-a1d4-5e2f90c3b781" "2024-01-15T10:30:00.000Z"
            vanishing_store
            {| get_results := [inr None]; put_results := put_results vanishing_store |}
            {| get_results := [inr None]; put_results := put_results vanishing_store |}
            {| get_results := [inr None]; put_results := put_results vanishing_store |}
            {| get_results := [inr None]; put_results := [] |}
            {| get_results := []; put_results := [] |}
            eq_refl eq_refl eq_refl eq_refl eq_refl (fun _ _ => eq_refl) eq_refl))).
Defined.

(** C9. An event without body, or whose body JSON.parse rejects, is answered
    400 VALIDATION_ERROR with message 'Invalid JSON body'; nothing is read,
    written or captured.  ([JSON.parse('')] throws, so the absent body, read
    as the empty string, is a parse failure.) *)
Theorem unparseable_body_is_validation_error
        (W : Type) (P : Platform W) (JSON_parse : string -> option JSValue)
        (event : APIGatewayProxyEvent) (w : W) :
  JSON_parse "" = None ->
  (ev_body event = None
   \/ exists text, ev_body event = Some text /\ JSON_parse text = None) ->
  body_text event = match ev_body event with Some text => text | None => "" end
  /\ exists resp,
      handler JSON_parse event w = (Ok resp, w, [])
      /\ statusCode resp = 400
      /\ body resp = BodyError "VALIDATION_ERROR" "Invalid JSON body".
Proof.
  intros Hempty Hbody. split; [reflexivity |].
  exists (validationError "Invalid JSON body").
  split; [| split; reflexivity].
  apply parse_failure. unfold body_text.
  destruct Hbody as [-> | (text & -> & Htext)]; assumption.
Qed.

(** C9 at an event without body. *)
Lemma absent_body_example :
  exists resp,
    handler parse_fixture event_without_body mem_empty = (Ok resp, mem_empty, [])
    /\ statusCode resp = 400
    /\ body resp = BodyError "VALIDATION_ERROR" "Invalid JSON body".
Proof.
  refine (proj2 (unparseable_body_is_validation_error MemWorld _ parse_fixture
                   event_without_body mem_empty eq_refl (or_introl eq_refl))).
Defined.

(** C10. The cart identifier check ignores the case of hexadecimal letters:
    the expression accepts exactly the strings of the 8-4-4-4-12 hyphenated
    shape whose digits are 0-9, a-f or A-F.  A cartId of that shape is never
    the reason of a validation failure, and the request is valid when the
    other fields are; a cartId not of that shape is rejected with one of the
    two cartId messages. *)
Theorem cartId_accepted_iff_uuid_shape
        (raw : list (string * JSValue)) (c : string) :
  get_prop "cartId" raw = Some (JString c) ->
  (Regex.test UUID_RE c = true <-> uuid_shape c)
  /\ (uuid_shape c ->
      validateRequest (JObject raw) <> Invalid "Missing or invalid cartId"
      /\ validateRequest (JObject raw) <> Invalid "cartId must be a valid UUID"
      /\ forall customer first more its,
           nonEmptyString (get_prop "customerId" raw) = Some customer ->
           get_prop "items" raw = Some (JArray (first :: more)) ->
           validateItems (first :: more) = inr its ->
           validateRequest (JObject raw)
           = Valid {| req_cartId := c; req_customerId := customer;
                      req_items := its |})
  /\ (~ uuid_shape c ->
      validateRequest (JObject raw) = Invalid "Missing or invalid cartId"
      \/ validateRequest (JObject raw) = Invalid "cartId must be a valid UUID").
Proof.
  intros Hc. pose proof (UUID_RE_shape c) as Hre.
  split; [exact Hre |]. split.
  - intros Hs. apply Hre in Hs.
    destruct (cartId_passes raw c Hc Hs) as [H1 H2].
    split; [exact H1 |]. split; [exact H2 |].
    intros customer first more its. now apply (cartId_valid raw c).
  - intros Hs. apply (cartId_rejected raw c); [assumption |].
    destruct (Regex.test UUID_RE c); [| reflexivity].
    exfalso. apply Hs, Hre. reflexivity.
Qed.

(** C10 at an identifier with letters in both cases. *)
Lemma mixed_case_uuid_example :
  Regex.test UUID_RE "123E4567-e89b-12D3-A456-426614174000" = true
  <-> uuid_shape "123E4567-e89b-12D3-A456-426614174000".
Proof.
  refine (proj1 (cartId_accepted_iff_uuid_shape
                   [("cartId", JString "123E4567-e89b-12D3-A456-426614174000")]
                   "123E4567-e89b-12D3-A456-426614174000" eq_refl)).
Defined.

(** * Further properties of the code *)

(** ** Validation: further properties *)

Lemma validateItem_rules (it : JSValue) (ci : CheckoutItem) :
  validateItem it = inr ci -> item_rules ci /\ item_of_json it ci.
Proof.
  intros Hv. apply validateItem_inr in Hv.
  destruct Hv as (i & -> & Hpid & Hnm & Hu & Hpos & Hq & Hge).
  apply nonEmptyString_Some in Hpid, Hnm.
  apply integerNumber_Some in Hu, Hq.
  destruct Hpid as [Hpid Hpid'], Hnm as [Hnm Hnm'], Hu as [Hu Hiu], Hq as [Hq Hiq].
  split.
  - unfold item_rules. repeat split; try assumption.
    + now apply not_leb_zero_ltb.
    + now apply not_ltb_one_leb.
  - unfold item_of_json. cbn [prop_of]. repeat split; assumption.
Qed.

Lemma validateItems_rules (l : list JSValue) (cis : list CheckoutItem) :
  validateItems l = inr cis ->
  Forall item_rules cis /\ Forall2 item_of_json l cis.
Proof.
  intros Hv. apply validateItems_inr in Hv.
  induction Hv as [| it ci l cis Hit _ [IH1 IH2]]; [split; constructor |].
  apply validateItem_rules in Hit. destruct Hit as [Hr Hj].
  split; constructor; assumption.
Qed.

(** X1. A request that validateRequest accepts meets every field rule: the
    cartId has the 8-4-4-4-12 hexadecimal shape, the customerId is not empty,
    there is at least one item, and every item has a non-empty productId and
    name, an integer unitPrice > 0 and an integer quantity >= 1. *)
Theorem validated_request_meets_rules (body : JSValue) (req : CheckoutRequest) :
  validateRequest body = Valid req ->
  uuid_shape (req_cartId req)
  /\ req_customerId req <> ""
  /\ req_items req <> []
  /\ Forall item_rules (req_items req).
Proof.
  intros Hv. apply validateRequest_Valid in Hv.
  destruct Hv as (raw & first & more & -> & Hcart & Hre & Hcust & Hitems & Hval).
  apply nonEmptyString_Some in Hcust. destruct Hcust as [_ Hcust].
  split; [now apply UUID_RE_shape |]. split; [assumption |]. split.
  - apply validateItems_inr in Hval. inversion Hval; discriminate.
  - now apply validateItems_rules in Hval.
Qed.

Lemma test_request_rules_witness :
  uuid_shape CART_ID /\ Forall item_rules test_cart.
Proof.
  pose proof (validated_request_meets_rules
                (js_request [js_item "prod-1" "T-Shirt" 2000 2;
                             js_item "prod-2" "Mug" 1500 1])
                (request_of test_cart) eq_refl) as H.
  split; [exact (proj1 H) | exact (proj2 (proj2 (proj2 H)))].
Defined.

(** X2. The accepted request is the body as it was sent: cartId and
    customerId are the body's strings unchanged (no trimming, no change of
    case), and the items are the body's items, one for one and in the same
    order, each with the four properties of its JSON object. *)
Theorem validated_request_mirrors_body (body : JSValue) (req : CheckoutRequest) :
  validateRequest body = Valid req ->
  prop_of body "cartId" = Some (JString (req_cartId req))
  /\ prop_of body "customerId" = Some (JString (req_customerId req))
  /\ Forall2 item_of_json (array_items body) (req_items req).
Proof.
  intros Hv. apply validateRequest_Valid in Hv.
  destruct Hv as (raw & first & more & -> & Hcart & Hre & Hcust & Hitems & Hval).
  apply nonEmptyString_Some in Hcart, Hcust.
  destruct Hcart as [Hcart _], Hcust as [Hcust _].
  cbn [prop_of array_items]. rewrite Hitems.
  split; [assumption |]. split; [assumption |].
  now apply validateItems_rules in Hval.
Qed.

Lemma test_request_mirror_witness :
  Forall2 item_of_json
          [js_item "prod-1" "T-Shirt" 2000 2; js_item "prod-2" "Mug" 1500 1]
          test_cart.
Proof.
  exact (proj2 (proj2 (validated_request_mirrors_body
                 (js_request [js_item "prod-1" "T-Shirt" 2000 2;
                              js_item "prod-2" "Mug" 1500 1])
                 (request_of test_cart) eq_refl))).
Defined.

Lemma validateItems_first_failure (pre post : list JSValue) (it : JSValue)
      (cis : list CheckoutItem) (m : string) :
  validateItems pre = inr cis -> validateItem it = inl m ->
  validateItems (pre ++ it :: post)%list = inl m.
Proof.
  revert cis. induction pre as [| x pre IH]; intros cis Hpre Hit; simpl.
  - now rewrite Hit.
  - simpl in Hpre. destruct (validateItem x) as [mx | cx]; [discriminate |].
    destruct (validateItems pre) as [mp | cp] eqn:Hp; [discriminate |].
    now rewrite (IH cp eq_refl Hit).
Qed.

(** X3. The items are checked in order and the first invalid one decides:
    when the items before it pass, the request is rejected with the message
    of that item, whatever comes after it. *)
Theorem first_invalid_item_decides
        (raw : list (string * JSValue)) (cart customer : string)
        (pre post : list JSValue) (it : JSValue) (cis : list CheckoutItem)
        (m : string) :
  nonEmptyString (get_prop "cartId" raw) = Some cart ->
  Regex.test UUID_RE cart = true ->
  nonEmptyString (get_prop "customerId" raw) = Some customer ->
  get_prop "items" raw = Some (JArray (pre ++ it :: post)%list) ->
  validateItems pre = inr cis ->
  validateItem it = inl m ->
  validateRequest (JObject raw) = Invalid m.
Proof.
  intros Hcart Hre Hcust Hitems Hpre Hit. unfold validateRequest.
  rewrite Hcart, Hre, Hcust, Hitems. cbn [negb].
  pose proof (validateItems_first_failure pre post it cis m Hpre Hit) as Hf.
  destruct (pre ++ it :: post)%list as [| first more] eqn:Hl.
  - destruct pre; discriminate.
  - now rewrite Hf.
Qed.

Lemma second_item_rejected_witness :
  validateRequest
    (js_request [js_item "prod-1" "T-Shirt" 2000 2;
                 js_item "prod-2" "Mug" 1500 0;
                 js_item "" "Pen" (-5) 1])
  = Invalid "quantity must be an integer >= 1".
Proof.
  exact (first_invalid_item_decides
           [("cartId", JString CART_ID); ("customerId", JString "customer-1");
            ("items", JArray [js_item "prod-1" "T-Shirt" 2000 2;
                              js_item "prod-2" "Mug" 1500 0;
                              js_item "" "Pen" (-5) 1])]
           CART_ID "customer-1"
           [js_item "prod-1" "T-Shirt" 2000 2] [js_item "" "Pen" (-5) 1]
           (js_item "prod-2" "Mug" 1500 0)
           [cart_item "prod-1" "T-Shirt" 2000 2]
           "quantity must be an integer >= 1"
           eq_refl eq_refl eq_refl eq_refl eq_refl eq_refl).
Defined.

Lemma ltb_zero_not_leb (u : number) :
  ltb (of_Z 0) u = true -> leb u (of_Z 0) = false.
Proof.
  destruct u as [s | s | | s m e]; try discriminate;
    destruct s; try discriminate; reflexivity.
Qed.

Lemma leb_one_not_ltb (q : number) :
  leb (of_Z 1) q = true -> ltb q (of_Z 1) = false.
Proof.
  destruct q as [s | s | | s m e]; try discriminate.
  - destruct s; [discriminate | reflexivity].
  - destruct s; [discriminate |].
    change (of_Z 1) with (S754_finite false 4503599627370496 (-52)).
    unfold leb, SFleb, ltb, SFltb.
    rewrite (compare_finite_antisym 4503599627370496 m (-52) e).
    destruct (SFcompare (S754_finite false 4503599627370496 (-52)) _) as [[| |] |];
      try discriminate; reflexivity.
Qed.

Lemma validateItem_complete (it : JSValue) (ci : CheckoutItem) :
  item_of_json it ci -> item_rules ci -> validateItem it = inr ci.
Proof.
  intros (Hpid & Hnm & Hu & Hq) (Hpid' & Hnm' & Hiu & Hpu & Hiq & Hpq).
  destruct it as [| | | | | i]; try discriminate. cbn [prop_of] in *.
  unfold validateItem. rewrite Hpid, Hnm, Hu, Hq.
  destruct ci as [pid nm u q].
  cbn [ci_productId ci_name ci_unitPrice ci_quantity] in *.
  destruct pid as [| ? ?]; [congruence |]. destruct nm as [| ? ?]; [congruence |].
  cbn [nonEmptyString integerNumber]. rewrite Hiu.
  rewrite (ltb_zero_not_leb _ Hpu). cbn [integerNumber]. rewrite Hiq.
  rewrite (leb_one_not_ltb _ Hpq). reflexivity.
Qed.

Lemma validateItems_complete (l : list JSValue) (cis : list CheckoutItem) :
  Forall2 item_of_json l cis -> Forall item_rules cis -> validateItems l = inr cis.
Proof.
  induction 1 as [| it ci l cis Hj _ IH]; intros Hr; [reflexivity |].
  inversion Hr as [| ? ? Hci Hcis]; subst. simpl.
  now rewrite (validateItem_complete it ci Hj Hci), (IH Hcis).
Qed.

(** X4. The field rules are all there is to validation: a body whose cartId
    has the UUID shape, whose customerId is a non-empty string and whose items
    array is not empty and holds only items meeting the item rules is
    accepted, with exactly these values. *)
Theorem request_meeting_rules_is_valid
        (body : JSValue) (cart customer : string) (cis : list CheckoutItem) :
  prop_of body "cartId" = Some (JString cart) ->
  uuid_shape cart ->
  prop_of body "customerId" = Some (JString customer) ->
  customer <> "" ->
  Forall2 item_of_json (array_items body) cis ->
  cis <> [] ->
  Forall item_rules cis ->
  validateRequest body
  = Valid {| req_cartId := cart; req_customerId := customer; req_items := cis |}.
Proof.
  intros Hcart Hshape Hcust Hne Hj Hcis Hr.
  destruct body as [| | | | | raw]; try discriminate. cbn [prop_of array_items] in *.
  apply UUID_RE_shape in Hshape.
  destruct (get_prop "items" raw) as [[| | | | its |] |] eqn:Hitems;
    try (inversion Hj; subst; congruence).
  destruct its as [| first more]; [inversion Hj; subst; congruence |].
  apply (cartId_valid raw cart customer first more cis); try assumption.
  - rewrite Hcust. destruct customer; [congruence | reflexivity].
  - now apply validateItems_complete.
Qed.

Lemma test_request_accepted_witness :
  validateRequest
    (js_request [js_item "prod-1" "T-Shirt" 2000 2; js_item "prod-2" "Mug" 1500 1])
  = Valid (request_of test_cart).
Proof.
  apply (request_meeting_rules_is_valid _ CART_ID "customer-1" test_cart).
  - reflexivity.
  - apply UUID_RE_shape. reflexivity.
  - reflexivity.
  - discriminate.
  - repeat constructor.
  - discriminate.
  - repeat constructor; discriminate.
Defined.

(** ** The handler and the repository: further properties *)

(** X5. The handler never throws, whatever the platform does: it answers
    with the JSON content type and either 200 and an order, or 400 and a
    VALIDATION_ERROR body (then without any effect: no event, the world
    untouched), or the fixed 500 response. *)
Theorem handler_always_responds
        (W : Type) (P : Platform W) (JSON_parse : string -> option JSValue)
        (event : APIGatewayProxyEvent) (w : W) :
  exists resp w' t,
    handler JSON_parse event w = (Ok resp, w', t)
    /\ headers resp = [("Content-Type", "application/json")]
    /\ ((statusCode resp = 200 /\ exists o, body resp = BodyOrder o)
        \/ (statusCode resp = 400
            /\ (exists m, body resp = BodyError "VALIDATION_ERROR" m)
            /\ w' = w /\ t = [])
        \/ resp = internalError).
Proof.
  destruct (JSON_parse (body_text event)) as [parsed |] eqn:Hp.
  - destruct (validateRequest parsed) as [req | m] eqn:Hv.
    + destruct (post_validation JSON_parse event parsed req w Hp Hv)
        as (resp & w' & t & Hh & Hr); exists resp, w', t;
        (split; [exact Hh |]); destruct Hr as [[o ->] | ->];
        (split; [reflexivity |]).
      * left. split; [reflexivity | eauto].
      * right. right. reflexivity.
    + exists (validationError m), w, [].
      split; [now apply validation_failure with (parsed := parsed) |].
      split; [reflexivity |]. right. left. cbn. eauto.
  - exists (validationError "Invalid JSON body"), w, [].
    split; [now apply parse_failure |].
    split; [reflexivity |]. right. left. cbn. eauto.
Qed.

Section Paths.

Context {W : Type} {P : Platform W}.
Variable JSON_parse : string -> option JSValue.

Lemma fresh_path (event : APIGatewayProxyEvent) (parsed : JSValue)
      (req : CheckoutRequest) (oid stamp : string) (w w1 w2 w3 w4 : W) :
  JSON_parse (body_text event) = Some parsed ->
  validateRequest parsed = Valid req ->
  send_GetCommand (req_cartId req) w = (inr None, w1) ->
  randomUUID w1 = (oid, w2) ->
  Date_toISOString w2 = (stamp, w3) ->
  send_PutCommand (candidate req oid stamp) w3 = (inr tt, w4) ->
  handler JSON_parse event w
  = (Ok (ok (candidate req oid stamp)), w4,
     [log_of info "checkout.start" (req_cartId req) None None;
      EvGet (req_cartId req) (inr None);
      EvPut (candidate req oid stamp) (inr tt);
      EvLog {| level := info; action := "payment.capture"; log_cartId := None;
               log_orderId := Some oid;
               log_total := Some (pr_total (calculatePricing (req_items req)));
               log_error := None |};
      log_of info "checkout.complete" (req_cartId req) (Some oid) None]).
Proof.
  intros Hp Hv Hg Hu Hd Hput. run. rewrite Hp, Hv.
  cbv beta iota zeta. rewrite Hg, Hu, Hd. cbv beta iota zeta.
  unfold candidate in Hput. cbv zeta in Hput. rewrite Hput. reflexivity.
Qed.

Lemma race_lost_path (event : APIGatewayProxyEvent) (parsed : JSValue)
      (req : CheckoutRequest) (oid stamp m : string) (winner : Order)
      (w w1 w2 w3 w4 w5 : W) :
  JSON_parse (body_text event) = Some parsed ->
  validateRequest parsed = Valid req ->
  send_GetCommand (req_cartId req) w = (inr None, w1) ->
  randomUUID w1 = (oid, w2) ->
  Date_toISOString w2 = (stamp, w3) ->
  send_PutCommand (candidate req oid stamp) w3
  = (inl (ConditionalCheckFailedException m), w4) ->
  send_GetCommand (req_cartId req) w4 = (inr (Some winner), w5) ->
  handler JSON_parse event w
  = (Ok (ok winner), w5,
     [log_of info "checkout.start" (req_cartId req) None None;
      EvGet (req_cartId req) (inr None);
      EvPut (candidate req oid stamp) (inl (ConditionalCheckFailedException m));
      EvGet (req_cartId req) (inr (Some winner));
      log_of info "checkout.duplicate" (req_cartId req)
             (Some (orderId winner)) None]).
Proof.
  intros Hp Hv Hg Hu Hd Hput Hg2. run. rewrite Hp, Hv.
  cbv beta iota zeta. rewrite Hg, Hu, Hd. cbv beta iota zeta.
  unfold candidate in Hput. cbv zeta in Hput. rewrite Hput.
  cbv beta iota zeta. cbn [cartId]. rewrite Hg2. reflexivity.
Qed.

End Paths.

(** X6. A request that finds no order, then loses the conditional put, is
    answered 200 with the record found by the re-read as the body, not with
    its own candidate; nothing is captured, its only put is the refused one, and the
    last log entry is checkout.duplicate with the winner's orderId. *)
Theorem lost_race_returns_winner
        (W : Type) (P : Platform W) (JSON_parse : string -> option JSValue)
        (event : APIGatewayProxyEvent) (parsed : JSValue)
        (req : CheckoutRequest) (oid stamp m : string) (winner : Order)
        (w w1 w2 w3 w4 w5 : W) :
  JSON_parse (body_text event) = Some parsed ->
  validateRequest parsed = Valid req ->
  send_GetCommand (req_cartId req) w = (inr None, w1) ->
  randomUUID w1 = (oid, w2) ->
  Date_toISOString w2 = (stamp, w3) ->
  send_PutCommand (candidate req oid stamp) w3
  = (inl (ConditionalCheckFailedException m), w4) ->
  send_GetCommand (req_cartId req) w4 = (inr (Some winner), w5) ->
  exists t,
    handler JSON_parse event w = (Ok (ok winner), w5, t)
    /\ List.filter is_capture t = []
    /\ List.filter is_put t
       = [EvPut (candidate req oid stamp) (inl (ConditionalCheckFailedException m))]
    /\ List.last t (EvGet "" (inr None))
       = log_of info "checkout.duplicate" (req_cartId req)
                (Some (orderId winner)) None
    /\ statusCode (ok winner) = 200
    /\ body (ok winner) = BodyOrder winner.
Proof.
  intros Hp Hv Hg Hu Hd Hput Hg2.
  rewrite (race_lost_path JSON_parse event parsed req oid stamp m winner
             w w1 w2 w3 w4 w5 Hp Hv Hg Hu Hd Hput Hg2).
  eexists. split; [reflexivity |]. repeat split; reflexivity.
Qed.

(** X7. createOrder, on any platform: it makes exactly one put, of the
    order it was given; it reads (once at most, the order's own cartId) only
    after that put was refused as a conflict; created = true means the put
    succeeded and the order returned is the one given; created = false
    returns the order the re-read found; an error other than the conflict is
    rethrown as it is, without a read. *)
Theorem createOrder_outcomes
        (W : Type) (P : Platform W) (o : Order) (w : W) :
  let '(r, w', t) := createOrder o w in
  (exists pr, List.filter is_put t = [EvPut o pr])
  /\ (List.length (List.filter is_get t) <= 1)%nat
  /\ (forall k gr, In (EvGet k gr) t ->
        k = cartId o /\ exists m, In (EvPut o (inl (ConditionalCheckFailedException m))) t)
  /\ match r with
     | Ok res =>
         if created res
         then order res = o /\ t = [EvPut o (inr tt)]
         else In (EvGet (cartId o) (inr (Some (order res)))) t
     | Throw err =>
         (exists n m, err = OtherError n m /\ t = [EvPut o (inl err)])
         \/ In (EvGet (cartId o) (inl err)) t
         \/ (In (EvGet (cartId o) (inr None)) t
             /\ err = Error ("Idempotency check failed: order for cartId "
                             ++ cartId o ++ " not found after conflict"))
     end.
Proof.
  run.
  destruct (send_PutCommand o w) as [[[m | n m] | []] w1]; cbv beta iota zeta.
  - destruct (send_GetCommand (cartId o) w1) as [[e | [found |]] w2];
      cbn [app List.filter is_put is_get List.length created order];
      (split; [eauto |]); (split; [lia |]);
      (split; [intros k gr [Hin | [Hin | []]]; try discriminate;
               injection Hin as <- <-; split; [reflexivity |];
               exists m; left; reflexivity |]);
      cbn; auto 6.
  - cbn [app List.filter is_put is_get List.length].
    split; [eauto |]. split; [lia |].
    split; [intros k gr [Hin | []]; discriminate |]. left. eauto.
  - cbn [app List.filter is_put is_get List.length created order].
    split; [eauto |]. split; [lia |].
    split; [intros k gr [Hin | []]; discriminate |]. auto.
Qed.

(** [String(err)] of an error without a message is its name alone. *)
Example String_of_Exn_examples :
  String_of_Exn (Error "") = "Error"
  /\ String_of_Exn (Error "boom") = "Error: boom"
  /\ String_of_Exn (OtherError "" "boom") = "boom"
  /\ String_of_Exn (ConditionalCheckFailedException "") = "ConditionalCheckFailedException".
Proof. repeat split; reflexivity. Qed.


(** X9. A validated request talks to the store in one of three ways only:
    one read of its cartId that answers or fails; that read finding nothing,
    then one put of the candidate built from the request; or read, refused
    put and one re-read.  It never puts before reading, never puts twice, and
    never touches another key. *)
Theorem store_protocol
        (W : Type) (P : Platform W) (JSON_parse : string -> option JSValue)
        (event : APIGatewayProxyEvent) (parsed : JSValue)
        (req : CheckoutRequest) (w : W) :
  JSON_parse (body_text event) = Some parsed ->
  validateRequest parsed = Valid req ->
  store_pattern req (List.filter is_store_call (snd (handler JSON_parse event w))).
Proof.
  intros Hp Hv. unfold store_pattern. run. rewrite Hp, Hv. cbv beta iota zeta.
  destruct (send_GetCommand (req_cartId req) w) as [[e | [found |]] w1].
  - left. exists (inl e). split; [discriminate | reflexivity].
  - left. exists (inr (Some found)). split; [discriminate | reflexivity].
  - destruct (randomUUID w1) as [oid w2]. destruct (Date_toISOString w2) as [stamp w3].
    cbv beta iota zeta. fold (candidate req oid stamp).
    destruct (send_PutCommand (candidate req oid stamp) w3)
      as [[[m | n m] | []] w4]; cbv beta iota zeta.
    + right. right. exists oid, stamp, m.
      destruct (send_GetCommand (cartId (candidate req oid stamp)) w4)
        as [[e | [found |]] w5]; eexists; reflexivity.
    + right. left. exists oid, stamp, (inl (OtherError n m)).
      split; [discriminate | reflexivity].
    + right. left. exists oid, stamp, (inr tt).
      split; [discriminate | reflexivity].
Qed.

Lemma in_memory_protocol_witness :
  store_pattern (request_of test_cart)
    (List.filter is_store_call
                 (snd (handler parse_fixture (event_of "valid") mem_empty))).
Proof.
  exact (store_protocol MemWorld mem_platform parse_fixture (event_of "valid")
           _ (request_of test_cart) mem_empty eq_refl eq_refl).
Defined.

Lemma scripted_race_witness :
  exists t,
    handler parse_fixture (event_of "other-items")
            {| get_results := [inr None; inr (Some stored_order)];
               put_results := put_results vanishing_store |}
    = (Ok (ok stored_order), {| get_results := []; put_results := [] |}, t)
    /\ List.filter is_capture t = [].
Proof.
  destruct (lost_race_returns_winner Script scripted_platform parse_fixture
              (event_of "other-items") _
              (request_of [cart_item "prod-9" "Poster" 700 3])
              "7d3f8a52-1c9e-4b60-a1d4-5e2f90c3b781" "2024-01-15T10:30:00.000Z"
              "The conditional request failed" stored_order
              {| get_results := [inr None; inr (Some stored_order)];
                 put_results := put_results vanishing_store |}
              {| get_results := [inr (Some stored_order)];
                 put_results := put_results vanishing_store |}
              {| get_results := [inr (Some stored_order)];
                 put_results := put_results vanishing_store |}
              {| get_results := [inr (Some stored_order)];
                 put_results := put_results vanishing_store |}
              {| get_results := [inr (Some stored_order)]; put_results := [] |}
              {| get_results := []; put_results := [] |}
              eq_refl eq_refl eq_refl eq_refl eq_refl eq_refl eq_refl)
    as (t & H1 & H2 & _).
  exists t. split; assumption.
Defined.


(** ** The repository and the handler on the in-memory table *)

Lemma mem_createOrder_absent (o : Order) (w : MemWorld) :
  table w !! cartId o = None ->
  createOrder o w
  = (Ok {| created := true; order := o |},
     {| table := <[cartId o := o]> (table w); uuid_at := uuid_at w;
        time_at := time_at w; tick := tick w |},
     [EvPut o (inr tt)]).
Proof.
  intros Hk. run. cbn [send_PutCommand mem_platform]. unfold mem_put.
  rewrite Hk. reflexivity.
Qed.

Lemma mem_createOrder_present (o e : Order) (w : MemWorld) :
  table w !! cartId o = Some e ->
  createOrder o w
  = (Ok {| created := false; order := e |}, w,
     [EvPut o (inl (ConditionalCheckFailedException "The conditional request failed"));
      EvGet (cartId o) (inr (Some e))]).
Proof.
  intros Hk. run. cbn [send_PutCommand send_GetCommand mem_platform]. unfold mem_put.
  rewrite Hk. cbv beta iota zeta. rewrite Hk. reflexivity.
Qed.

Lemma mem_createOrders_present (os : list Order) (e : Order) (k : string)
      (w : MemWorld) :
  table w !! k = Some e ->
  Forall (fun o => cartId o = k) os ->
  exists t,
    createOrders os w
    = (Ok (List.map (fun _ => {| created := false; order := e |}) os), w, t)
    /\ List.filter put_ok t = [].
Proof.
  intros Hk Hall. induction Hall as [| o os Ho _ (t & IH & IHt)].
  - exists []. split; reflexivity.
  - cbn [createOrders]. unfold bind at 1.
    rewrite (mem_createOrder_present o e w) by (now rewrite Ho).
    unfold bind at 1. rewrite IH. eexists. split; [reflexivity |].
    cbn [ret app List.filter put_ok]. rewrite List.filter_app, IHt. reflexivity.
Qed.

(** X10. Against the in-memory table with conditional put: of successive
    createOrder calls for one cartId not yet on record, the first reports
    created = true, every later one created = false with the first order, the
    table holds the first order, and only one put succeeds. *)
Theorem exactly_once_creation (o : Order) (os : list Order) (w : MemWorld) :
  table w !! cartId o = None ->
  Forall (fun o' => cartId o' = cartId o) os ->
  exists w' t,
    createOrders (o :: os) w
    = (Ok ({| created := true; order := o |}
           :: List.map (fun _ => {| created := false; order := o |}) os), w', t)
    /\ table w' = <[cartId o := o]> (table w)
    /\ List.filter put_ok t = [EvPut o (inr tt)].
Proof.
  intros Hk Hall. cbn [createOrders]. unfold bind at 1.
  rewrite (mem_createOrder_absent o w Hk).
  set (w1 := {| table := <[cartId o := o]> (table w); uuid_at := uuid_at w;
                time_at := time_at w; tick := tick w |}).
  destruct (mem_createOrders_present os o (cartId o) w1) as (t & Ht & Hf);
    [apply lookup_insert_eq | assumption |].
  unfold bind at 1. rewrite Ht. exists w1. eexists. split; [reflexivity |].
  split; [reflexivity |].
  cbn [ret app List.filter put_ok]. rewrite List.filter_app, Hf. reflexivity.
Qed.

Lemma three_retries_witness :
  exists w' t,
    createOrders [stored_order; stored_order; stored_order] mem_empty
    = (Ok [{| created := true; order := stored_order |};
           {| created := false; order := stored_order |};
           {| created := false; order := stored_order |}], w', t)
    /\ table w' = <[CART_ID := stored_order]> (table mem_empty)
    /\ List.filter put_ok t = [EvPut stored_order (inr tt)].
Proof.
  apply (exactly_once_creation stored_order [stored_order; stored_order] mem_empty).
  - reflexivity.
  - repeat constructor.
Defined.

(** X11. Against the in-memory table: createOrder always succeeds; it
    reports created = true exactly when no record existed; it never changes
    an existing record nor another key; and getOrderByCartId right after it
    returns the order it returned. *)
Theorem createOrder_then_read (o : Order) (w : MemWorld) :
  exists res w' t,
    createOrder o w = (Ok res, w', t)
    /\ (created res = true <-> table w !! cartId o = None)
    /\ (created res = true -> order res = o)
    /\ (forall k e, table w !! k = Some e -> table w' !! k = Some e)
    /\ (forall k, k <> cartId o -> table w' !! k = table w !! k)
    /\ getOrderByCartId (cartId o) w'
       = (Ok (Some (order res)), w', [EvGet (cartId o) (inr (Some (order res)))]).
Proof.
  destruct (table w !! cartId o) as [e |] eqn:Hk.
  - rewrite (mem_createOrder_present o e w Hk).
    eexists. exists w. eexists. split; [reflexivity |]. cbn [created order].
    split; [split; discriminate |]. split; [discriminate |].
    split; [auto |]. split; [auto |].
    unfold getOrderByCartId, await_get. cbn [send_GetCommand mem_platform].
    now rewrite Hk.
  - rewrite (mem_createOrder_absent o w Hk).
    eexists. eexists. eexists. split; [reflexivity |]. cbn [created order table].
    split; [split; reflexivity |]. split; [reflexivity |].
    split.
    { intros k e Hke. destruct (decide (k = cartId o)) as [-> | Hne].
      - congruence.
      - now rewrite lookup_insert_ne. }
    split.
    { intros k Hne. now rewrite lookup_insert_ne. }
    unfold getOrderByCartId, await_get. cbn [send_GetCommand mem_platform table].
    now rewrite lookup_insert_eq.
Qed.

(** X12. Against the in-memory table, whatever the event: a checkout never
    changes or removes a record; the only key it can add is the validated
    cartId, absent before, with the candidate built from the request; and if
    every record was filed under its own cartId, it still is. *)
Theorem checkout_keeps_records
        (JSON_parse : string -> option JSValue)
        (event : APIGatewayProxyEvent) (w : MemWorld) :
  let w' := snd (fst (handler JSON_parse event w)) in
  (forall k e, table w !! k = Some e -> table w' !! k = Some e)
  /\ (forall k, table w' !! k <> table w !! k ->
        exists parsed req oid stamp,
          JSON_parse (body_text event) = Some parsed
          /\ validateRequest parsed = Valid req
          /\ k = req_cartId req
          /\ table w !! k = None
          /\ table w' !! k = Some (candidate req oid stamp))
  /\ (keyed w -> keyed w').
Proof.
  run.
  destruct (JSON_parse (body_text event)) as [parsed |] eqn:Hp;
    [| cbn [fst snd]; split; [auto | split; [congruence | auto]]].
  destruct (validateRequest parsed) as [req | m] eqn:Hv;
    [| cbn [fst snd]; split; [auto | split; [congruence | auto]]].
  cbv beta iota zeta. cbn [send_GetCommand mem_platform].
  destruct (table w !! req_cartId req) as [e |] eqn:Hk.
  - cbn [fst snd]. split; [auto | split; [congruence | auto]].
  - cbn [randomUUID Date_toISOString send_PutCommand mem_platform].
    cbv beta iota zeta. unfold mem_put. cbn [cartId table mem_next].
    rewrite Hk. cbv beta iota zeta. cbn [negb created fst snd table].
    split; [| split].
    + intros k e Hke. destruct (decide (k = req_cartId req)) as [-> | Hne].
      * congruence.
      * now rewrite lookup_insert_ne.
    + intros k Hdiff. destruct (decide (k = req_cartId req)) as [-> | Hne].
      * exists parsed, req. eexists. eexists.
        split; [reflexivity |]. split; [assumption |]. split; [reflexivity |].
        split; [assumption |]. rewrite lookup_insert_eq. unfold candidate.
        reflexivity.
      * exfalso. apply Hdiff. now rewrite lookup_insert_ne.
    + intros Hkeyed k o Hko. cbn [table] in Hko.
      destruct (decide (k = req_cartId req)) as [-> | Hne].
      * rewrite lookup_insert_eq in Hko. injection Hko as <-. reflexivity.
      * rewrite lookup_insert_ne in Hko by congruence. now apply Hkeyed.
Qed.

(** ** Pricing: further properties *)

Lemma shr_m_nonneg (m e n : Z) :
  0 <= m ->
  0 <= shr_m (fst (shr {| shr_m := m; shr_r := false; shr_s := false |} e n)).
Proof.
  intros Hm. destruct (Z_lt_le_dec 0 n) as [Hn | Hn].
  - destruct (shr_spec m e n Hm Hn) as (r & -> & Hq & _). cbn [fst].
    rewrite Hq. apply Z.div_pos; [assumption |]. apply Z.pow_pos_nonneg; lia.
  - rewrite shr_nop by assumption. assumption.
Qed.

(** Rounding a positive mantissa never yields NaN or a negative number. *)
Lemma bra_unsigned (m : positive) (e : Z) :
  unsigned (binary_round_aux prec emax false (Zpos m) e loc_Exact) = true.
Proof.
  unfold binary_round_aux, shr_fexp. cbn [shr_record_of_loc].
  set (n1 := fexp prec emax (Zdigits2 (Zpos m) + e) - e).
  pose proof (shr_m_nonneg (Zpos m) e n1 ltac:(lia)) as H1.
  destruct (shr _ e n1) as [r1 e1]. cbn [fst] in H1.
  pose proof (round_nearest_even_cases r1) as Hc. cbv zeta in Hc.
  set (m1 := round_nearest_even (shr_m r1) (loc_of_shr_record r1)) in *.
  assert (Hm1 : 0 <= m1) by (clearbody m1; destruct Hc as [-> | [-> _]]; lia).
  set (n2 := fexp prec emax (Zdigits2 m1 + e1) - e1).
  pose proof (shr_m_nonneg m1 e1 n2 Hm1) as H2.
  destruct (shr _ e1 n2) as [r2 e2]. cbn [fst] in H2.
  destruct (shr_m r2) as [| p | p]; [reflexivity | | lia].
  destruct (e2 <=? emax - prec); reflexivity.
Qed.

Lemma binary_round_unsigned (m : positive) (e : Z) :
  unsigned (binary_round prec emax false m e) = true.
Proof.
  unfold binary_round. destruct (shl_align m e _) as [mz ez]. apply bra_unsigned.
Qed.

Lemma add_unsigned (x y : number) :
  unsigned x = true -> unsigned y = true -> unsigned (add x y) = true.
Proof.
  destruct x as [[] | [] | | [] mx ex]; try discriminate;
    destruct y as [[] | [] | | [] my ey]; try discriminate;
    intros _ _; try reflexivity.
  unfold add, SFadd. cbn [cond_Zopp].
  destruct (Zpos _ + Zpos _) as [| p | p] eqn:Hs; try lia.
  apply binary_round_unsigned.
Qed.

Lemma mul_finite_unsigned (x : number) (m : positive) (e : Z) :
  unsigned x = true -> unsigned (mul x (S754_finite false m e)) = true.
Proof.
  destruct x as [[] | [] | | [] mx ex]; try discriminate; intros _; try reflexivity.
  unfold mul, SFmul. cbn [xorb]. apply bra_unsigned.
Qed.

Lemma Math_floor_unsigned (x : number) :
  unsigned x = true -> unsigned (Math_floor x) = true.
Proof.
  destruct x as [[] | [] | | [] m e]; try discriminate; intros _; try reflexivity.
  unfold Math_floor, binary_normalize.
  assert (H : 0 <= floorZ false m e).
  { unfold floorZ. cbn [cond_Zopp]. destruct (0 <=? e) eqn:He.
    - apply Z.leb_le in He. apply Z.mul_nonneg_nonneg; [lia |].
      apply Z.pow_nonneg. lia.
    - apply Z.div_pos; [lia |]. apply Z.pow_pos_nonneg; [lia |].
      apply Z.leb_gt in He. lia. }
  destruct (floorZ false m e) as [| p | p]; [reflexivity | | lia].
  apply binary_round_unsigned.
Qed.

Lemma valid_item_finite (it : CheckoutItem) :
  valid_item it = true ->
  exists mu eu mq eq,
    ci_unitPrice it = S754_finite false mu eu
    /\ ci_quantity it = S754_finite false mq eq.
Proof.
  unfold valid_item. rewrite !andb_true_iff.
  intros [[[[[_ Hiu] Hpu] _] Hiq] Hpq].
  pose proof (leb_one_positive _ Hpq Hiq) as Hpq'.
  destruct (ci_unitPrice it) as [s | s | | [] mu eu]; try discriminate.
  destruct (ci_quantity it) as [s | s | | [] mq eq]; try discriminate.
  eauto 6.
Qed.

Lemma lineTotal_unsigned (it : CheckoutItem) :
  valid_item it = true -> unsigned (lineTotal (priceItem it)) = true.
Proof.
  intros Hv. destruct (valid_item_finite it Hv) as (mu & eu & mq & eq & Hu & Hq).
  cbn [lineTotal priceItem]. rewrite Hu, Hq. now apply mul_finite_unsigned.
Qed.

Lemma fold_unsigned (its : list CheckoutItem) (acc : number) :
  forallb valid_item its = true -> unsigned acc = true ->
  unsigned (fold_left (fun sum item => add sum (lineTotal item))
                      (List.map priceItem its) acc) = true.
Proof.
  revert acc. induction its as [| it rest IH]; intros acc; simpl; [auto |].
  rewrite andb_true_iff. intros [Hit Hrest] Hacc.
  apply IH; [assumption |]. apply add_unsigned; [assumption |].
  now apply lineTotal_unsigned.
Qed.

(** X13. For items that pass the item rules, of any magnitude, no figure of
    calculatePricing is NaN, negative or -0: on overflow the figures are
    Infinity. *)
Theorem pricing_never_NaN_nor_negative (its : list CheckoutItem) :
  forallb valid_item its = true ->
  let r := calculatePricing its in
  Forall (fun oi => unsigned (lineTotal oi) = true) (pr_items r)
  /\ unsigned (pr_subtotal r) = true
  /\ unsigned (pr_tax r) = true
  /\ unsigned (pr_total r) = true.
Proof.
  intros Hv r.
  assert (Hs : unsigned (pr_subtotal r) = true)
    by (apply fold_unsigned; [assumption | reflexivity]).
  assert (Ht : unsigned (pr_tax r) = true).
  { change (pr_tax r) with (Math_floor (mul (pr_subtotal r) lit_0_08)).
    apply Math_floor_unsigned. rewrite lit_0_08_value.
    now apply mul_finite_unsigned. }
  split; [| split; [assumption | split; [assumption |]]].
  - change (pr_items r) with (List.map priceItem its).
    clear -Hv. induction its as [| it rest IH]; [constructor |].
    simpl in Hv. apply andb_true_iff in Hv. destruct Hv as [Hit Hrest].
    constructor; [now apply lineTotal_unsigned | now apply IH].
  - change (pr_total r) with (add (pr_subtotal r) (pr_tax r)).
    now apply add_unsigned.
Qed.

Lemma overflow_cart_witness :
  forallb valid_item cart_overflow = true
  /\ pr_total (calculatePricing cart_overflow) = S754_infinity false
  /\ unsigned (pr_total (calculatePricing cart_overflow)) = true.
Proof.
  assert (Hv : forallb valid_item cart_overflow = true) by (vm_compute; reflexivity).
  split; [exact Hv |]. split; [vm_compute; reflexivity |].
  pose proof (pricing_never_NaN_nor_negative cart_overflow Hv) as H. cbv zeta in H.
  exact (proj2 (proj2 (proj2 H))).
Defined.

Lemma exact_subtotal_perm (its its' : list CheckoutItem) :
  Permutation its its' -> exact_subtotal its = exact_subtotal its'.
Proof.
  induction 1; simpl; lia.
Qed.

Lemma valid_items_perm (its its' : list CheckoutItem) :
  Permutation its its' -> valid_items its -> valid_items its'.
Proof.
  intros Hp [Hne Hall]. split.
  - intros ->. apply Permutation_nil_r in Hp. contradiction.
  - apply forallb_forall. intros x Hx.
    rewrite forallb_forall in Hall. apply Hall.
    apply Permutation_in with (l := its'); [now apply Permutation_sym | assumption].
Qed.

Lemma total_exact (its : list CheckoutItem) :
  valid_items its -> exact_subtotal its < 2 ^ 52 ->
  pr_total (calculatePricing its)
  = of_Z (exact_subtotal its + exact_tax (exact_subtotal its)).
Proof.
  intros Hv Hlt. pose proof (exact_subtotal_positive its Hv) as Hpos.
  pose proof (exact_tax_bounds (exact_subtotal its) ltac:(lia)) as Hb.
  change (pr_total (calculatePricing its))
    with (add (pr_subtotal (calculatePricing its)) (pr_tax (calculatePricing its))).
  rewrite (tax_exact its Hv Hlt).
  rewrite subtotal_exact by (destruct Hv; assumption || lia).
  apply add_of_Z; lia.
Qed.

(** X14. For a valid cart with subtotal below 2^52 cents, subtotal, tax and
    total do not depend on the order of the items. *)
Theorem pricing_ignores_item_order (its its' : list CheckoutItem) :
  Permutation its its' ->
  valid_items its ->
  exact_subtotal its < 2 ^ 52 ->
  pr_subtotal (calculatePricing its') = pr_subtotal (calculatePricing its)
  /\ pr_tax (calculatePricing its') = pr_tax (calculatePricing its)
  /\ pr_total (calculatePricing its') = pr_total (calculatePricing its).
Proof.
  intros Hp Hv Hlt.
  pose proof (valid_items_perm its its' Hp Hv) as Hv'.
  pose proof (exact_subtotal_perm its its' Hp) as He.
  assert (Hlt' : exact_subtotal its' < 2 ^ 52) by lia.
  rewrite (tax_exact its Hv Hlt), (tax_exact its' Hv' Hlt').
  rewrite (total_exact its Hv Hlt), (total_exact its' Hv' Hlt').
  rewrite !subtotal_exact by (destruct Hv, Hv'; assumption || lia).
  rewrite He. repeat split; reflexivity.
Qed.

Lemma reversed_cart_witness :
  pr_total (calculatePricing (rev test_cart)) = pr_total (calculatePricing test_cart).
Proof.
  refine (proj2 (proj2 (pricing_ignores_item_order test_cart (rev test_cart) _ _ _))).
  - apply Permutation_rev.
  - split; [discriminate | reflexivity].
  - reflexivity.
Defined.

Lemma validated_items_valid (body : JSValue) (req : CheckoutRequest) :
  validateRequest body = Valid req ->
  forallb wf_item (req_items req) = true ->
  valid_items (req_items req).
Proof.
  intros Hv Hwf. apply validateRequest_Valid in Hv.
  destruct Hv as (raw & first & more & _ & _ & _ & _ & _ & Hval).
  apply validateItems_inr in Hval. split.
  - inversion Hval; discriminate.
  - clear -Hval Hwf. revert Hwf.
    induction Hval as [| it ci l cis Hit _ IH]; [reflexivity |].
    cbn [forallb]. rewrite !andb_true_iff. intros [Hci Hcis].
    unfold wf_item in Hci. apply andb_true_iff in Hci. destruct Hci as [Hu Hq].
    split; [now apply (validated_item_valid it) | now apply IH].
Qed.

(** X15. End to end, for a validated request with well-formed numbers and
    subtotal below 2^52 cents, when the probe finds nothing and the put
    succeeds: the answer is 200 with the order that was put as the body; its
    id and time stamp are
    those drawn, cartId and customerId the request's, status CONFIRMED;
    its items, subtotal, tax = floor(8 percent) and total are exact; the store
    saw one read and one put; and the one capture is for the order's id and
    exact total. *)
Theorem new_order_has_exact_figures
        (W : Type) (P : Platform W) (JSON_parse : string -> option JSValue)
        (event : APIGatewayProxyEvent) (parsed : JSValue)
        (req : CheckoutRequest) (oid stamp : string) (w w1 w2 w3 w4 : W) :
  JSON_parse (body_text event) = Some parsed ->
  validateRequest parsed = Valid req ->
  forallb wf_item (req_items req) = true ->
  exact_subtotal (req_items req) < 2 ^ 52 ->
  send_GetCommand (req_cartId req) w = (inr None, w1) ->
  randomUUID w1 = (oid, w2) ->
  Date_toISOString w2 = (stamp, w3) ->
  send_PutCommand (candidate req oid stamp) w3 = (inr tt, w4) ->
  let s := exact_subtotal (req_items req) in
  let o := candidate req oid stamp in
  exists t,
    handler JSON_parse event w = (Ok (ok o), w4, t)
    /\ List.filter is_store_call t
       = [EvGet (req_cartId req) (inr None); EvPut o (inr tt)]
    /\ List.filter is_capture t
       = [EvLog {| level := info; action := "payment.capture"; log_cartId := None;
                   log_orderId := Some oid;
                   log_total := Some (of_Z (s + exact_tax s));
                   log_error := None |}]
    /\ orderId o = oid /\ createdAt o = stamp /\ status o = CONFIRMED
    /\ cartId o = req_cartId req /\ customerId o = req_customerId req
    /\ items o = List.map exact_priceItem (req_items req)
    /\ to_Z (subtotal o) = s
    /\ to_Z (tax o) = exact_tax s
    /\ to_Z (total o) = s + exact_tax s
    /\ statusCode (ok o) = 200
    /\ body (ok o) = BodyOrder o.
Proof.
  intros Hp Hv Hwf Hlt Hg Hu Hd Hput s o.
  pose proof (validated_items_valid parsed req Hv Hwf) as Hvalid.
  pose proof (exact_subtotal_positive _ Hvalid) as Hpos.
  pose proof (exact_tax_bounds s ltac:(unfold s; lia)) as Hb.
  rewrite (fresh_path JSON_parse event parsed req oid stamp w w1 w2 w3 w4
             Hp Hv Hg Hu Hd Hput).
  eexists. split; [reflexivity |]. split; [reflexivity |].
  split.
  { cbn [List.filter is_capture log_of action String.eqb Ascii.eqb].
    rewrite (total_exact _ Hvalid Hlt). reflexivity. }
  unfold o, candidate. cbn [orderId createdAt status cartId customerId items
                             subtotal tax total].
  repeat (split; [reflexivity |]).
  split; [apply map_priceItem_exact; [apply Hvalid | lia] |].
  rewrite (tax_exact _ Hvalid Hlt), (total_exact _ Hvalid Hlt).
  rewrite subtotal_exact by (apply Hvalid || lia).
  fold s. rewrite !to_Z_of_Z by (unfold s in *; lia). repeat split; reflexivity.
Qed.

Lemma in_memory_new_order_witness :
  exists t,
    handler parse_fixture (event_of "valid") mem_empty
    = (Ok (ok stored_order),
       {| table := <[CART_ID := stored_order]> (table mem_empty);
          uuid_at := uuid_at mem_empty; time_at := time_at mem_empty; tick := 2 |},
       t)
    /\ List.filter is_store_call t
       = [EvGet CART_ID (inr None); EvPut stored_order (inr tt)].
Proof.
  destruct (new_order_has_exact_figures MemWorld mem_platform parse_fixture
              (event_of "valid") _ (request_of test_cart)
              (uuid_at mem_empty 0) (time_at mem_empty 1)
              mem_empty mem_empty (mem_next mem_empty)
              (mem_next (mem_next mem_empty))
              {| table := <[CART_ID := stored_order]> (table mem_empty);
                 uuid_at := uuid_at mem_empty; time_at := time_at mem_empty;
                 tick := 2 |}
              eq_refl eq_refl eq_refl eq_refl eq_refl eq_refl eq_refl eq_refl)
    as (t & H1 & H2 & _).
  exists t. split; [exact H1 | exact H2].
Defined.

(** X16. For every valid item list whose subtotal is below 2^52 cents the
    tax, computed as [Math.floor] of the binary64 product [subtotal * 0.08],
    is the exact floor of subtotal * 8 / 100. *)
Theorem tax_is_exact_floor_below_2_52 (its : list CheckoutItem) :
  valid_items its ->
  exact_subtotal its < 2 ^ 52 ->
  pr_tax (calculatePricing its) = Math_floor (mul (pr_subtotal (calculatePricing its)) lit_0_08)
  /\ pr_tax (calculatePricing its) = of_Z (exact_tax (exact_subtotal its))
  /\ to_Z (pr_tax (calculatePricing its)) = exact_tax (exact_subtotal its).
Proof.
  intros Hv Hlt. pose proof (exact_subtotal_positive its Hv) as Hpos.
  pose proof (tax_exact its Hv Hlt) as Ht.
  split; [reflexivity |]. split; [assumption |]. rewrite Ht.
  pose proof (exact_tax_bounds (exact_subtotal its) ltac:(lia)).
  apply to_Z_of_Z. lia.
Qed.

Lemma test_cart_tax_example :
  valid_items test_cart /\ exact_subtotal test_cart < 2 ^ 52
  /\ pr_tax (calculatePricing test_cart) = of_Z 440.
Proof.
  assert (Hv : valid_items test_cart) by (split; [discriminate | reflexivity]).
  assert (Hlt : exact_subtotal test_cart < 2 ^ 52) by reflexivity.
  split; [exact Hv |]. split; [exact Hlt |].
  exact (proj1 (proj2 (tax_is_exact_floor_below_2_52 test_cart Hv Hlt))).
Defined.

(** X17. For every valid item list whose subtotal is below 2^53 cents the
    tax is an integer that is the exact floor of subtotal * 8 / 100 or one
    cent more, never less and never further off. *)
Theorem tax_within_one_cent (its : list CheckoutItem) :
  valid_items its ->
  exact_subtotal its < 2 ^ 53 ->
  let t := to_Z (pr_tax (calculatePricing its)) in
  pr_tax (calculatePricing its) = of_Z t
  /\ exact_tax (exact_subtotal its) <= t <= exact_tax (exact_subtotal its) + 1.
Proof.
  intros Hv Hlt.
  destruct (tax_value its Hv Hlt) as (t & Htax & Hb & Ht).
  cbv zeta. rewrite Htax, to_Z_of_Z by lia. split; [reflexivity | exact Hb].
Qed.

Lemma one_cent_over_witness :
  valid_items cart_5254199565265587
  /\ exact_subtotal cart_5254199565265587 < 2 ^ 53
  /\ exact_tax (exact_subtotal cart_5254199565265587)
     <= to_Z (pr_tax (calculatePricing cart_5254199565265587))
     <= exact_tax (exact_subtotal cart_5254199565265587) + 1.
Proof.
  assert (Hv : valid_items cart_5254199565265587)
    by (split; [discriminate | reflexivity]).
  assert (Hlt : exact_subtotal cart_5254199565265587 < 2 ^ 53) by reflexivity.
  split; [exact Hv |]. split; [exact Hlt |].
  exact (proj2 (tax_within_one_cent cart_5254199565265587 Hv Hlt)).
Defined.
